(** * Customer portal backend: a shallow embedding of the Express routes

    The development follows the layout of [backend/src]:
    - [Js]: the JavaScript string and array primitives the routes call
      ([toLowerCase], [trim], [replace], [split], [slice], [sort]) and the
      values of a JSON body;
    - [jwt_sign], [jwt_verify]: the two entry points of the jsonwebtoken
      package that the code uses;
    - [verifyToken]: middleware/auth.js;
    - [login]: routes/auth.js;
    - [getJobById], [getJobsByCustomerEmail]: services/servicem8.js;
    - [bookings_list], [bookings_get]: routes/bookings.js;
    - [messages_get_booking], [messages_post_booking], [messages_get_all]:
      routes/messages.js.

    Strings are sequences of code units below 256 (the Latin-1 range of a
    JavaScript string); instants are integers, milliseconds since the epoch,
    as returned by [Date.now()].  What a handler reads from its environment
    (the clock, the identifier drawn by [uuidv4()], the answers of the
    upstream API, the storage file) is an argument of its model, and the
    storage file it leaves is part of the result.  The file is only ever
    written by the message router, so it holds an array of well-formed
    records whenever it exists. *)

From Stdlib Require Import ZArith NArith List String Ascii Bool Lia.
From Stdlib Require Import Permutation Sorted.
From Stdlib Require Import DecimalString DecimalZ.
Import ListNotations.

Local Open Scope string_scope.
Local Open Scope Z_scope.

(* ================================================================== *)
(** ** JavaScript primitives *)
(* ================================================================== *)

Module Js.

(** [\s] of a regular expression and the characters removed by
    [String.prototype.trim]: TAB, LF, VT, FF, CR, SPACE and NBSP. *)
Definition isWhiteSpace (c : ascii) : bool :=
  let n := N_of_ascii c in
  (((9 <=? n) && (n <=? 13)) || (n =? 32) || (n =? 160))%N.

(** One code unit of [String.prototype.toLowerCase]: A-Z and the
    upper-case letters of Latin-1 (all of 192..222 but the sign 215). *)
Definition toLowerCaseChar (c : ascii) : ascii :=
  let n := N_of_ascii c in
  if (((65 <=? n) && (n <=? 90))
      || ((192 <=? n) && (n <=? 222) && negb (n =? 215)))%N
  then ascii_of_N (n + 32) else c.

Fixpoint toLowerCase (s : string) : string :=
  match s with
  | EmptyString => EmptyString
  | String c r => String (toLowerCaseChar c) (toLowerCase r)
  end.

Fixpoint trimStart (s : string) : string :=
  match s with
  | EmptyString => EmptyString
  | String c r => if isWhiteSpace c then trimStart r else s
  end.

Fixpoint trimEnd (s : string) : string :=
  match s with
  | EmptyString => EmptyString
  | String c r =>
      let r' := trimEnd r in
      if isWhiteSpace c && (r' =? "")%string then EmptyString
      else String c r'
  end.

Definition trim (s : string) : string := trimEnd (trimStart s).

(** [s.replace(/[...]/g, '')] for a character class [cls]. *)
Fixpoint removeAll (cls : ascii -> bool) (s : string) : string :=
  match s with
  | EmptyString => EmptyString
  | String c r => if cls c then removeAll cls r else String c (removeAll cls r)
  end.

(** [s.split(sep)] for a separator of one character. *)
Fixpoint split (sep : ascii) (s : string) : list string :=
  match s with
  | EmptyString => [EmptyString]
  | String c r =>
      if Ascii.eqb c sep then EmptyString :: split sep r
      else match split sep r with
           | [] => [String c EmptyString]
           | p :: ps => String c p :: ps
           end
  end.

(** [s.includes(c)] for one character. *)
Fixpoint includes (c : ascii) (s : string) : bool :=
  match s with
  | EmptyString => false
  | String d r => Ascii.eqb d c || includes c r
  end.

(** [s.slice(0, n)]. *)
Definition slice0 (n : nat) (s : string) : string := substring 0 n s.

(** [s.length] *)
Definition length (s : string) : Z := Z.of_nat (String.length s).

(** Values of a parsed JSON document, and [undefined] for a property that
    is not there.  Arrays and objects are not told apart: the routes only
    test them for truthiness and type. *)
Inductive value : Type :=
| Undefined
| Null
| Bool (b : bool)
| Number (n : Z)
| Str (s : string)
| Object.

(** ToBoolean *)
Definition truthy (v : value) : bool :=
  match v with
  | Undefined | Null => false
  | Bool b => b
  | Number n => negb (n =? 0)
  | Str s => negb (s =? "")%string
  | Object => true
  end.

(** [a || b] *)
Definition or (a b : value) : value := if truthy a then a else b.

(** [Array.prototype.sort(compare)]: a stable sort; [x] goes before [y]
    when [compare x y <= 0] and [x] was before [y] in the input. *)
Section Sort.
Context {A : Type} (compare : A -> A -> Z).

Fixpoint insert (x : A) (l : list A) : list A :=
  match l with
  | [] => [x]
  | y :: l' => if compare x y <=? 0 then x :: l else y :: insert x l'
  end.

Fixpoint sort (l : list A) : list A :=
  match l with
  | [] => []
  | x :: l' => insert x (sort l')
  end.
End Sort.

End Js.

(* ================================================================== *)
(** ** Data model *)
(* ================================================================== *)

(** An entry of [mockCustomers] (routes/auth.js). *)
Module Customer.
Record t : Type := mk
  { id : string; email : string; phone : string;
    firstName : string; lastName : string }.
End Customer.

(** The decoded payload of a session token: [tokenPayload] of the login
    route with the [iat] and [exp] claims that [jwt.sign] adds (seconds). *)
Module Claims.
Record t : Type := mk
  { customerId : string; email : string;
    firstName : string; lastName : string;
    iat : Z; exp : option Z }.
End Claims.

(** A job object of the upstream API; every property but [uuid] may be
    missing or empty, which is why the routes default them with [||]. *)
Module Job.
Record t : Type := mk
  { uuid : string;
    job_address : Js.value; job_description : Js.value;
    status : Js.value; date : Js.value; time : Js.value;
    company_uuid : Js.value; generated_job_id : Js.value;
    total_amount : Js.value; work_done_description : Js.value;
    notes : Js.value;
    contact_first : Js.value; contact_last : Js.value;
    contact_phone : Js.value; contact_email : Js.value }.
End Job.

(** The booking summary of [GET /api/bookings]. *)
Module Booking.
Record t : Type := mk
  { id : string; jobNumber : Js.value; address : Js.value;
    description : Js.value; status : Js.value;
    date : Js.value; time : Js.value; amount : Js.value }.
End Booking.

Module Contact.
Record t : Type := mk
  { firstName : Js.value; lastName : Js.value;
    phone : Js.value; email : Js.value }.
End Contact.

(** The detailed booking of [GET /api/bookings/:id]. *)
Module BookingDetail.
Record t : Type := mk
  { summary : Booking.t; workDone : Js.value; notes : Js.value;
    contact : Contact.t }.
End BookingDetail.

(** A record of data/messages.json.  [createdAt] is the instant whose
    [toISOString()] rendering the file holds; [new Date(createdAt)] in the
    sort comparators reads the same instant back. *)
Module Message.
Record t : Type := mk
  { id : string; bookingId : string; customerId : string;
    customerName : string; customerEmail : string;
    content : string; createdAt : Z; isFromCustomer : bool }.
End Message.

(** The customer object of the login response. *)
Module PublicCustomer.
Record t : Type := mk
  { id : string; email : string; firstName : string; lastName : string }.
End PublicCustomer.

(** What a route sends: [res.status(n).json(body)]. *)
Inductive Body : Type :=
| ErrorBody (error message : string)
| LoginBody (message token : string) (customer : PublicCustomer.t)
| MeBody (customer : Claims.t)
| BookingsBody (bookings : list Booking.t) (count : Z)
| BookingBody (booking : BookingDetail.t)
| MessagesBody (messages : list Message.t) (count : Z)
| MessageSentBody (message : string) (data : Message.t).

Record Response : Type := res { status : Z; json : Body }.

(* ================================================================== *)
(** ** The jsonwebtoken package *)
(* ================================================================== *)

(** A compact JWS: the claims and the signature over them.  The header is
    the fixed HS256 one. *)
Record Jws : Type := mkJws { jws_payload : Claims.t; jws_signature : string }.

Inductive JwtError : Type := TokenExpiredError | JsonWebTokenError.

(** A concrete serialization with which the development is instantiated:
    seven dot-separated segments, each written in base 16 so that no
    segment holds a dot or a space (the role base64url plays in a JWT). *)
Module HexCodec.

Definition nibble (n : N) : ascii :=
  ascii_of_N (if (n <? 10)%N then 48 + n else 87 + n).

Definition unnibble (c : ascii) : option N :=
  let n := N_of_ascii c in
  if ((48 <=? n) && (n <=? 57))%N then Some (n - 48)%N
  else if ((97 <=? n) && (n <=? 102))%N then Some (n - 87)%N
  else None.

Fixpoint hex (s : string) : string :=
  match s with
  | EmptyString => EmptyString
  | String c r =>
      String (nibble (N_of_ascii c / 16))
        (String (nibble (N_of_ascii c mod 16)) (hex r))
  end.

Fixpoint unhex (s : string) : option string :=
  match s with
  | EmptyString => Some EmptyString
  | String a (String b r) =>
      match unnibble a, unnibble b, unhex r with
      | Some h, Some l, Some t => Some (String (ascii_of_N (16 * h + l)) t)
      | _, _, _ => None
      end
  | String _ EmptyString => None
  end.

Definition string_of_Z (z : Z) : string :=
  NilEmpty.string_of_int (Z.to_int z).

Definition Z_of_string (s : string) : option Z :=
  option_map Z.of_int (NilEmpty.int_of_string s).

Definition string_of_exp (e : option Z) : string :=
  match e with
  | None => "n"
  | Some z => String "s" (string_of_Z z)
  end.

Definition exp_of_string (s : string) : option (option Z) :=
  match s with
  | String "n" EmptyString => Some None
  | String "s" r => option_map Some (Z_of_string r)
  | _ => None
  end.

Definition serialize (j : Jws) : string :=
  let p := jws_payload j in
  String.concat "."
    [ hex (Claims.customerId p); hex (Claims.email p);
      hex (Claims.firstName p); hex (Claims.lastName p);
      hex (string_of_Z (Claims.iat p)); hex (string_of_exp (Claims.exp p));
      hex (jws_signature j) ].

Definition parse (s : string) : option Jws :=
  match Js.split "." s with
  | [a; b; c; d; e; f; g] =>
      match unhex a, unhex b, unhex c, unhex d with
      | Some cid, Some em, Some fn, Some ln =>
          match option_map Z_of_string (unhex e),
                option_map exp_of_string (unhex f), unhex g with
          | Some (Some i), Some (Some x), Some sg =>
              Some (mkJws (Claims.mk cid em fn ln i x) sg)
          | _, _, _ => None
          end
      | _, _, _, _ => None
      end
  | _ => None
  end.

(** A keyed digest standing in for HMAC-SHA256. *)
Definition mac (key : string) (p : Claims.t) : string :=
  key ++ "/" ++ serialize (mkJws p EmptyString).

End HexCodec.

(* ================================================================== *)
(** ** services/servicem8.js: the upstream API as the service sees it *)
(* ================================================================== *)

(** The answers of the ServiceM8 REST API to the two requests of the job
    client.  [None] is a request that throws (network failure, a status
    outside 2xx); for one job, [Some None] is a 2xx answer with an empty
    body. *)
Record Upstream : Type := mkUpstream
  { job_json : option (list Job.t);
    job_by_id : string -> option (option Job.t) }.

(** [createApiClient]: [null] when SERVICEM8_API_KEY is not set. *)
Definition createApiClient (SERVICEM8_API_KEY : option string)
    (api : Upstream) : option Upstream :=
  match SERVICEM8_API_KEY with
  | None => None
  | Some apiKey => if (apiKey =? "")%string then None else Some api
  end.

Definition getMockJobs : list Job.t :=
  [ Job.mk "job-001-uuid"
      (Js.Str "123 Main Street, Sydney NSW 2000")
      (Js.Str "Annual HVAC Maintenance")
      (Js.Str "Completed") (Js.Str "2024-11-20") (Js.Str "09:00")
      (Js.Str "company-001") (Js.Str "JOB-2024-001") (Js.Number 250)
      (Js.Str "Completed full system check and filter replacement")
      Js.Undefined Js.Undefined Js.Undefined Js.Undefined Js.Undefined;
    Job.mk "job-002-uuid"
      (Js.Str "456 George Street, Melbourne VIC 3000")
      (Js.Str "Emergency Plumbing Repair")
      (Js.Str "Quote") (Js.Str "2024-11-25") (Js.Str "14:00")
      (Js.Str "company-001") (Js.Str "JOB-2024-002") (Js.Number 180)
      (Js.Str "")
      Js.Undefined Js.Undefined Js.Undefined Js.Undefined Js.Undefined;
    Job.mk "job-003-uuid"
      (Js.Str "789 Collins Avenue, Brisbane QLD 4000")
      (Js.Str "Electrical Safety Inspection")
      (Js.Str "Work Order") (Js.Str "2024-11-28") (Js.Str "10:30")
      (Js.Str "company-001") (Js.Str "JOB-2024-003") (Js.Number 320)
      (Js.Str "")
      Js.Undefined Js.Undefined Js.Undefined Js.Undefined Js.Undefined ].

(** [{ ...job, notes: ..., contact_first: ..., ... }] *)
Definition withMockDetails (job : Job.t) : Job.t :=
  Job.mk (Job.uuid job) (Job.job_address job) (Job.job_description job)
    (Job.status job) (Job.date job) (Job.time job) (Job.company_uuid job)
    (Job.generated_job_id job) (Job.total_amount job)
    (Job.work_done_description job)
    (Js.Str "Customer prefers morning appointments. Gate code is 1234.")
    (Js.Str "John") (Js.Str "Smith") (Js.Str "0400 123 456")
    (Js.Str "customer@example.com").

Definition getMockJobById (jobId : string) : option Job.t :=
  let jobs := getMockJobs in
  match find (fun j => (Job.uuid j =? jobId)%string) jobs with
  | None => None
  | Some job => Some (withMockDetails job)
  end.

Definition getMockJobsByEmail (email : string) : list Job.t :=
  if (Js.toLowerCase email =? "customer@example.com")%string
  then getMockJobs else [].

(** [getJobById]: [client.get] on a [null] client throws inside the [try],
    so a missing key takes the same [catch] branch as a failed request. *)
Definition getJobById (key : option string) (api : Upstream)
    (jobId : string) : option Job.t :=
  match createApiClient key api with
  | None => getMockJobById jobId
  | Some client =>
      match job_by_id client jobId with
      | Some data => data
      | None => getMockJobById jobId
      end
  end.

Definition getJobsByCustomerEmail (key : option string) (api : Upstream)
    (email : string) : list Job.t :=
  match createApiClient key api with
  | None => getMockJobsByEmail email
  | Some client =>
      match job_json client with
      | Some jobs => jobs
      | None => getMockJobsByEmail email
      end
  end.

(* ================================================================== *)
(** ** routes/bookings.js: the handlers behind [verifyToken] *)
(* ================================================================== *)

Definition toBooking (job : Job.t) : Booking.t :=
  Booking.mk (Job.uuid job)
    (Js.or (Job.generated_job_id job)
           (Js.Str ("JOB-" ++ Js.slice0 8 (Job.uuid job))))
    (Js.or (Job.job_address job) (Js.Str "No address provided"))
    (Js.or (Job.job_description job) (Js.Str "No description"))
    (Js.or (Job.status job) (Js.Str "Unknown"))
    (Js.or (Job.date job) Js.Null)
    (Js.or (Job.time job) Js.Null)
    (Js.or (Job.total_amount job) (Js.Number 0)).

Definition toBookingDetail (job : Job.t) : BookingDetail.t :=
  BookingDetail.mk (toBooking job)
    (Js.or (Job.work_done_description job) (Js.Str ""))
    (Js.or (Job.notes job) (Js.Str ""))
    (Contact.mk
       (Js.or (Job.contact_first job) (Js.Str ""))
       (Js.or (Job.contact_last job) (Js.Str ""))
       (Js.or (Job.contact_phone job) (Js.Str ""))
       (Js.or (Job.contact_email job) (Js.Str ""))).

(** [router.get('/')] *)
Definition bookings_list (key : option string) (api : Upstream)
    (user : Claims.t) : Response :=
  let customerEmail := Claims.email user in
  let jobs := getJobsByCustomerEmail key api customerEmail in
  let bookings := map toBooking jobs in
  res 200 (BookingsBody bookings (Z.of_nat (List.length bookings))).

(** [router.get('/:id')] *)
Definition bookings_get (key : option string) (api : Upstream)
    (id : string) : Response :=
  match getJobById key api id with
  | None => res 404 (ErrorBody "Not Found" "Booking not found")
  | Some job => res 200 (BookingBody (toBookingDetail job))
  end.

(* ================================================================== *)
(** ** routes/messages.js *)
(* ================================================================== *)

(** The storage file data/messages.json: absent, or holding an array. *)
Definition Storage : Type := option (list Message.t).

Definition ensureStorageExists (fs : Storage) : Storage :=
  match fs with
  | None => Some []
  | Some _ => fs
  end.

Definition readMessages (fs : Storage) : list Message.t * Storage :=
  let fs := ensureStorageExists fs in
  (match fs with Some data => data | None => [] end, fs).

Definition writeMessages (messages : list Message.t) (fs : Storage) : Storage :=
  let _ := ensureStorageExists fs in
  Some messages.

(** [(a, b) => new Date(b.createdAt) - new Date(a.createdAt)] *)
Definition newestFirst (a b : Message.t) : Z :=
  Message.createdAt b - Message.createdAt a.

(** [router.get('/booking/:bookingId')]; [user] is [req.user]. *)
Definition messages_get_booking (user : Claims.t) (bookingId : string)
    (fs : Storage) : Response * Storage :=
  let (allMessages, fs) := readMessages fs in
  let bookingMessages :=
    Js.sort newestFirst
      (filter (fun msg => (Message.bookingId msg =? bookingId)%string)
              allMessages) in
  (res 200 (MessagesBody bookingMessages
              (Z.of_nat (List.length bookingMessages))), fs).

(** The template literal [`${firstName} ${lastName}`.trim() || 'Customer']. *)
Definition customerNameOf (firstName lastName : string) : string :=
  let name := Js.trim (firstName ++ " " ++ lastName) in
  if (name =? "")%string then "Customer" else name.

(** [router.post('/booking/:bookingId')]; [uuid] is what [uuidv4()] draws
    and [now] what [new Date()] reads during the request. *)
Definition messages_post_booking (user : Claims.t) (bookingId : string)
    (content : Js.value) (uuid : string) (now : Z) (fs : Storage)
    : Response * Storage :=
  match content with
  | Js.Str text =>
      if negb (Js.truthy content) || (Js.length (Js.trim text) =? 0) then
        (res 400 (ErrorBody "Bad Request" "Message content is required"), fs)
      else if Js.length text >? 2000 then
        (res 400 (ErrorBody "Bad Request"
                    "Message content cannot exceed 2000 characters"), fs)
      else
        let newMessage :=
          Message.mk uuid bookingId (Claims.customerId user)
            (customerNameOf (Claims.firstName user) (Claims.lastName user))
            (Claims.email user) (Js.trim text) now true in
        let (allMessages, fs) := readMessages fs in
        let allMessages := (allMessages ++ [newMessage])%list in
        let fs := writeMessages allMessages fs in
        (res 201 (MessageSentBody "Message sent successfully" newMessage), fs)
  | _ =>
      (* falsy, or [typeof content !== 'string'] *)
      (res 400 (ErrorBody "Bad Request" "Message content is required"), fs)
  end.

(** [router.get('/all')] *)
Definition messages_get_all (user : Claims.t) (fs : Storage)
    : Response * Storage :=
  let customerId := Claims.customerId user in
  let (allMessages, fs) := readMessages fs in
  let customerMessages :=
    Js.sort newestFirst
      (filter (fun msg => (Message.customerId msg =? customerId)%string)
              allMessages) in
  (res 200 (MessagesBody customerMessages
              (Z.of_nat (List.length customerMessages))), fs).

(** The three routes of the message router. *)
Inductive MessageRequest : Type :=
| GetBooking (bookingId : string)
| PostBooking (bookingId : string) (content : Js.value)
              (uuid : string) (now : Z)
| GetAll.

Definition messages_router (user : Claims.t) (req : MessageRequest)
    (fs : Storage) : Response * Storage :=
  match req with
  | GetBooking bookingId => messages_get_booking user bookingId fs
  | PostBooking bookingId content uuid now =>
      messages_post_booking user bookingId content uuid now fs
  | GetAll => messages_get_all user fs
  end.

(** The records the file holds; none when it does not exist yet. *)
Definition stored (fs : Storage) : list Message.t :=
  match fs with
  | Some data => data
  | None => []
  end.

(* ================================================================== *)
(** ** routes/auth.js: the credential store *)
(* ================================================================== *)

Definition mockCustomers : list Customer.t :=
  [ Customer.mk "cust-001" "customer@example.com" "0400123456" "John" "Smith";
    Customer.mk "cust-002" "jane.doe@example.com" "0411222333" "Jane" "Doe" ].

(** The character class [[\s\-\(\)]] of the phone normalization. *)
Definition isPhoneSeparator (c : ascii) : bool :=
  Js.isWhiteSpace c || Ascii.eqb c "-" || Ascii.eqb c "(" || Ascii.eqb c ")".

Definition normalizePhone (phone : string) : string :=
  Js.removeAll isPhoneSeparator phone.

Definition normalizeEmail (email : string) : string :=
  Js.trim (Js.toLowerCase email).

(** The predicate of [mockCustomers.find]. *)
Definition credentialsMatch (normalizedEmail normalizedPhone : string)
    (c : Customer.t) : bool :=
  (Js.toLowerCase (Customer.email c) =? normalizedEmail)%string
  && (Customer.phone c =? normalizedPhone)%string.

(** ['24h'], in the seconds of the [exp] claim. *)
Definition TOKEN_EXPIRY : Z := 86400.

Definition unauthorized (message : string) : Response :=
  res 401 (ErrorBody "Unauthorized" message).

(* ================================================================== *)
(** ** Sample data on which the properties below are exercised *)
(* ================================================================== *)

Module Sample.

(** The secret in force when JWT_SECRET is not set. *)
Definition secret : string := "default_dev_secret_change_in_production".

(** An instant, in milliseconds, and one second later. *)
Definition t0 : Z := 1700000000000.
Definition t1 : Z := 1700000001000.

(** The claims of the two stored customers for a login at [t0]. *)
Definition john : Claims.t :=
  Claims.mk "cust-001" "customer@example.com" "John" "Smith"
    1700000000 (Some 1700086400).

Definition jane : Claims.t :=
  Claims.mk "cust-002" "jane.doe@example.com" "Jane" "Doe"
    1700000000 (Some 1700086400).

(** The Authorization header of a session with the given claims. *)
Definition bearer (claims : Claims.t) : option string :=
  Some ("Bearer "
        ++ HexCodec.serialize (mkJws claims (HexCodec.mac secret claims))).

(** An upstream that does not answer, and one that holds one job. *)
Definition upstreamDown : Upstream := mkUpstream None (fun _ => None).

Definition job9 : Job.t :=
  Job.mk "9f3c2a10-77aa" (Js.Str "1 Pitt Street") Js.Undefined
    (Js.Str "Quote") Js.Null Js.Null Js.Undefined (Js.Str "")
    (Js.Number 0) Js.Undefined Js.Undefined Js.Undefined Js.Undefined
    Js.Undefined Js.Undefined.

Definition upstreamUp : Upstream :=
  mkUpstream (Some [job9])
    (fun id => if (id =? "9f3c2a10-77aa")%string then Some (Some job9)
               else None).

(** A storage file with two messages on one booking, by two authors,
    and one on another booking. *)
Definition file : Storage :=
  Some [ Message.mk "m-1" "job-001-uuid" "cust-001" "John Smith"
           "customer@example.com" "When will you arrive?" 1700000100000 true;
         Message.mk "m-2" "job-002-uuid" "cust-001" "John Smith"
           "customer@example.com" "Please send the quote" 1700000200000 true;
         Message.mk "m-3" "job-001-uuid" "cust-002" "Jane Doe"
           "jane.doe@example.com" "Gate code changed" 1700000300000 true ].

(** The record a message [  Hello  ] of John on the first booking
    gives at [t1], and the file once it is appended. *)
Definition hello : Message.t :=
  Message.mk "m-4" "job-001-uuid" "cust-001" "John Smith"
    "customer@example.com" "Hello" t1 true.

Definition fileAfter : Storage := Some (stored file ++ [hello])%list.

(** 1997 spaces, to pad a text past the limit. *)
Definition padding : string :=
  string_of_list_ascii (repeat " "%char 1997).

End Sample.

(* ================================================================== *)
(** ** services/servicem8.js: the job listing and the attachments *)
(* ================================================================== *)

(** [getJobs]: the listing without a customer; the fallback is the whole
    fixed dataset. *)
Definition getJobs (key : option string) (api : Upstream) : list Job.t :=
  match createApiClient key api with
  | None => getMockJobs
  | Some client =>
      match job_json client with
      | Some jobs => jobs
      | None => getMockJobs
      end
  end.

(** An attachment object as the upstream API sends it. *)
Module RawAttachment.
Record t : Type := mk
  { uuid : string;
    filename : Js.value; file_name : Js.value;
    content_type : Js.value; file_type : Js.value;
    timestamp : Js.value; created_date : Js.value;
    attachment_name : Js.value; description : Js.value }.
End RawAttachment.

(** The shape [getJobAttachments] returns, which is also the shape of the
    fallback data. *)
Module Attachment.
Record t : Type := mk
  { uuid : string; file_name : Js.value; file_type : Js.value;
    created_date : Js.value; description : Js.value }.
End Attachment.

(** The shape the attachments route sends. *)
Module AttachmentView.
Record t : Type := mk
  { id : string; fileName : Js.value; fileType : Js.value;
    description : Js.value; createdDate : Js.value;
    downloadUrl : string }.
End AttachmentView.

(** What [getJobAttachments] hands to the route: an array, or a value
    that is no array and has no [map]. *)
Inductive Attachments : Type :=
| AttachmentArray (items : list Attachment.t)
| NotAnArray.

(** The answers of the upstream API to the attachment query of a job;
    [None] is a request that throws. *)
Definition AttachmentApi : Type := string -> option (list RawAttachment.t).

(** The property names every object literal inherits from
    [Object.prototype]: for these [attachmentsByJob[jobId]] is a truthy
    value that is not an array. *)
Definition objectPrototypeKeys : list string :=
  [ "constructor"; "__proto__"; "__defineGetter__"; "__defineSetter__";
    "__lookupGetter__"; "__lookupSetter__"; "hasOwnProperty";
    "isPrototypeOf"; "propertyIsEnumerable"; "toLocaleString"; "toString";
    "valueOf" ].

(** [attachmentsByJob[jobId] || []] *)
Definition getMockAttachments (jobId : string) : Attachments :=
  if (jobId =? "job-001-uuid")%string then
    AttachmentArray
      [ Attachment.mk "attach-001" (Js.Str "invoice_001.pdf")
          (Js.Str "application/pdf") (Js.Str "2024-11-20")
          (Js.Str "Service Invoice");
        Attachment.mk "attach-002" (Js.Str "before_photo.jpg")
          (Js.Str "image/jpeg") (Js.Str "2024-11-20")
          (Js.Str "Before service photo") ]
  else if (jobId =? "job-002-uuid")%string then
    AttachmentArray
      [ Attachment.mk "attach-003" (Js.Str "quote_002.pdf")
          (Js.Str "application/pdf") (Js.Str "2024-11-22")
          (Js.Str "Service Quote") ]
  else if (jobId =? "job-003-uuid")%string then AttachmentArray []
  else if existsb (String.eqb jobId) objectPrototypeKeys then NotAnArray
  else AttachmentArray [].

(** The [map] of [getJobAttachments] on one upstream object. *)
Definition toAttachment (att : RawAttachment.t) : Attachment.t :=
  Attachment.mk (RawAttachment.uuid att)
    (Js.or (Js.or (RawAttachment.filename att) (RawAttachment.file_name att))
           (Js.Str "Attachment"))
    (Js.or (Js.or (RawAttachment.content_type att)
                  (RawAttachment.file_type att))
           (Js.Str "application/octet-stream"))
    (Js.or (RawAttachment.timestamp att) (RawAttachment.created_date att))
    (Js.or (Js.or (RawAttachment.attachment_name att)
                  (RawAttachment.description att))
           (Js.Str "")).

Definition getJobAttachments (key : option string) (api : Upstream)
    (files : AttachmentApi) (jobId : string) : Attachments :=
  match createApiClient key api with
  | None => getMockAttachments jobId
  | Some _ =>
      match files jobId with
      | Some data => AttachmentArray (map toAttachment data)
      | None => getMockAttachments jobId
      end
  end.

(* ================================================================== *)
(** ** The attachments route: the listing behind [verifyToken] *)
(* ================================================================== *)

Definition toAttachmentView (att : Attachment.t) : AttachmentView.t :=
  AttachmentView.mk (Attachment.uuid att)
    (Js.or (Attachment.file_name att) (Js.Str "Unnamed file"))
    (Js.or (Attachment.file_type att) (Js.Str "application/octet-stream"))
    (Js.or (Attachment.description att) (Js.Str ""))
    (Js.or (Attachment.created_date att) Js.Null)
    ("/api/attachments/" ++ Attachment.uuid att ++ "/download").

(** What the listing sends: [{ success, attachments, count }] with status
    200, or an error response. *)
Inductive AttachmentsAnswer : Type :=
| AttachmentsBody (attachments : list AttachmentView.t) (count : Z)
| AttachmentsFailure (r : Response).

(** [router.get('/booking/:bookingId')]: [map] on a value that is no
    array throws, and the [catch] answers 500. *)
Definition attachments_list (key : option string) (api : Upstream)
    (files : AttachmentApi) (bookingId : string) : AttachmentsAnswer :=
  match getJobAttachments key api files bookingId with
  | AttachmentArray rawAttachments =>
      let attachments := map toAttachmentView rawAttachments in
      AttachmentsBody attachments (Z.of_nat (List.length attachments))
  | NotAnArray =>
      AttachmentsFailure
        (res 500 (ErrorBody "Server Error" "Failed to fetch attachments"))
  end.

(* ================================================================== *)
(** ** The pages: the status badge *)
(* ================================================================== *)

(** [getStatusClass] of the bookings pages.  [None] is the TypeError of
    [status?.toLowerCase()] on a value that is neither nullish nor a
    string. *)
Definition getStatusClass (status : Js.value) : option string :=
  let classOf (statusLower : string) : string :=
    if (statusLower =? "completed")%string then "badge-completed"
    else if (statusLower =? "quote")%string then "badge-quote"
    else if (statusLower =? "work order")%string then "badge-work-order"
    else "badge-pending" in
  match status with
  | Js.Undefined | Js.Null => Some (classOf "")
  | Js.Str s => Some (classOf (Js.toLowerCase s))
  | _ => None
  end.

(* ================================================================== *)
(** ** Further vocabulary *)
(* ================================================================== *)

(** [typeof v === 'string'] *)
Definition isString (v : Js.value) : bool :=
  match v with
  | Js.Str _ => true
  | _ => false
  end.

(** Every character of the string is white space. *)
Fixpoint allWhiteSpace (s : string) : bool :=
  match s with
  | EmptyString => true
  | String c r => Js.isWhiteSpace c && allWhiteSpace r
  end.

(** What the send-message handler guarantees of a record it stores. *)
Definition wellFormedMessage (msg : Message.t) : Prop :=
  Message.isFromCustomer msg = true
  /\ Message.content msg <> ""
  /\ Js.trim (Message.content msg) = Message.content msg
  /\ Js.length (Message.content msg) <= 2000
  /\ Message.customerName msg <> "".

(** The identifier a request draws is not the id of a stored record. *)
Definition drawsFreshId (req : MessageRequest) (fs : Storage) : Prop :=
  match req with
  | PostBooking _ _ uuid _ => ~ In uuid (map Message.id (stored fs))
  | _ => True
  end.

(** The instants of the records grow along the list. *)
Definition clockAdvances (messages : list Message.t) : Prop :=
  StronglySorted
    (fun a b => Message.createdAt a < Message.createdAt b) messages.

(** What the routes never leave undefined in a booking. *)
Definition displayable (b : Booking.t) : Prop :=
  Js.truthy (Booking.jobNumber b) = true
  /\ Js.truthy (Booking.address b) = true
  /\ Js.truthy (Booking.description b) = true
  /\ Js.truthy (Booking.status b) = true
  /\ (Booking.date b = Js.Null \/ Js.truthy (Booking.date b) = true)
  /\ (Booking.time b = Js.Null \/ Js.truthy (Booking.time b) = true)
  /\ (Booking.amount b = Js.Number 0 \/ Js.truthy (Booking.amount b) = true).

(** Sample attachments of the upstream. *)
Module SampleFiles.

Definition photo : RawAttachment.t :=
  RawAttachment.mk "att-77" Js.Undefined (Js.Str "roof.jpg")
    (Js.Str "image/jpeg") Js.Undefined (Js.Str "2024-12-01") Js.Undefined
    Js.Null (Js.Str "").

Definition bare : RawAttachment.t :=
  RawAttachment.mk "att-78" Js.Undefined Js.Undefined Js.Undefined
    Js.Undefined Js.Undefined Js.Undefined Js.Undefined Js.Undefined.

Definition filesUp : AttachmentApi :=
  fun jobId =>
    if (jobId =? "9f3c2a10-77aa")%string then Some [photo; bare]
    else Some [].

Definition filesDown : AttachmentApi := fun _ => None.

End SampleFiles.

(* ================================================================== *)
(** ** Session tokens, the middleware and the routes behind it *)
(* ================================================================== *)

Section Portal.

(** The parts of [jsonwebtoken] left open: the keyed digest of the
    signature and the compact serialization of a token. *)
Variable hmacSha256 : string -> Claims.t -> string.
Variable jws_serialize : Jws -> string.
Variable jws_parse : string -> option Jws.

(** [process.env.JWT_SECRET] *)
Variable env_JWT_SECRET : option string.

Definition JWT_SECRET : string :=
  match env_JWT_SECRET with
  | Some s =>
      if (s =? "")%string then "default_dev_secret_change_in_production"
      else s
  | None => "default_dev_secret_change_in_production"
  end.

(** Modelled from the spec: [jwt.sign(payload, secret, { expiresIn })]
    of the jsonwebtoken package, which is not among the sources (a
    session token is a signed blob carrying the identity claims with
    its issue and expiry instants).  At the instant [now], [iat] is the
    clock in seconds and [exp] is [iat + expiresIn]. *)
Definition jwt_sign (customerId email firstName lastName : string)
    (secret : string) (expiresIn : Z) (now : Z) : string :=
  let iat := now / 1000 in
  let payload :=
    Claims.mk customerId email firstName lastName iat
              (Some (iat + expiresIn)) in
  jws_serialize (mkJws payload (hmacSha256 secret payload)).

(** Modelled from the spec: [jwt.verify(token, secret)] of the same
    package (a token is accepted until its expiry instant and rejected
    at or after it, or when its signature is invalid).  At the instant
    [now] the token must be given, parse, carry the signature of its
    payload under [secret], and the clock in seconds must be below
    [exp] when there is one; the error tells an expired token from any
    other failure. *)
Definition jwt_verify (token : string) (secret : string) (now : Z)
    : JwtError + Claims.t :=
  if (token =? "")%string then inl JsonWebTokenError
  else
    match jws_parse token with
    | None => inl JsonWebTokenError
    | Some jws =>
        let payload := jws_payload jws in
        if negb (jws_signature jws =? hmacSha256 secret payload)%string
        then inl JsonWebTokenError
        else
          match Claims.exp payload with
          | Some exp =>
              if now / 1000 >=? exp then inl TokenExpiredError
              else inr payload
          | None => inr payload
          end
    end.

(** middleware/auth.js.  [authorization] is [req.headers.authorization];
    [inr decoded] is the call of [next()] with [req.user = decoded]. *)
Definition verifyToken (authorization : option string) (now : Z)
    : Response + Claims.t :=
  match authorization with
  | None => inl (unauthorized "No authorization token provided")
  | Some authHeader =>
      if (authHeader =? "")%string then
        inl (unauthorized "No authorization token provided")
      else
        let parts := Js.split " " authHeader in
        if negb (Nat.eqb (List.length parts) 2)
           || negb (nth 0 parts "" =? "Bearer")%string
        then inl (unauthorized "Invalid authorization header format")
        else
          let token := nth 1 parts "" in
          match jwt_verify token JWT_SECRET now with
          | inr decoded => inr decoded
          | inl TokenExpiredError => inl (unauthorized "Token has expired")
          | inl JsonWebTokenError => inl (unauthorized "Invalid token")
          end
  end.

(** [router.post('/login')] of routes/auth.js; [email] and [phone] are
    the properties of [req.body]. *)
Definition login (email phone : Js.value) (now : Z) : Response :=
  if negb (Js.truthy email) || negb (Js.truthy phone) then
    res 400 (ErrorBody "Bad Request" "Email and phone number are required")
  else
    match phone, email with
    | Js.Str phone, Js.Str email =>
        let normalizedPhone := normalizePhone phone in
        let normalizedEmail := normalizeEmail email in
        match find (credentialsMatch normalizedEmail normalizedPhone)
                   mockCustomers with
        | None => unauthorized "Invalid email or phone number"
        | Some customer =>
            let token :=
              jwt_sign (Customer.id customer) (Customer.email customer)
                (Customer.firstName customer) (Customer.lastName customer)
                JWT_SECRET TOKEN_EXPIRY now in
            res 200
              (LoginBody "Login successful" token
                 (PublicCustomer.mk (Customer.id customer)
                    (Customer.email customer)
                    (Customer.firstName customer)
                    (Customer.lastName customer)))
        end
    | _, _ =>
        (* [replace] or [toLowerCase] is not a function: the TypeError
           lands in the [catch] *)
        res 500 (ErrorBody "Server Error" "An error occurred during login")
    end.

(** [router.get('/me')] *)
Definition auth_me (authorization : option string) (now : Z) : Response :=
  match verifyToken authorization now with
  | inl r => r
  | inr user => res 200 (MeBody user)
  end.

(** [app.use('/api/bookings', bookingsRoutes)] with
    [router.use(verifyToken)] in front of the two handlers. *)
Definition api_bookings_list (key : option string) (api : Upstream)
    (authorization : option string) (now : Z) : Response :=
  match verifyToken authorization now with
  | inl r => r
  | inr user => bookings_list key api user
  end.

Definition api_bookings_get (key : option string) (api : Upstream)
    (authorization : option string) (now : Z) (id : string) : Response :=
  match verifyToken authorization now with
  | inl r => r
  | inr user => bookings_get key api id
  end.

(** [app.use('/api/messages', messagesRoutes)], again behind
    [router.use(verifyToken)]; a rejected request leaves the file alone. *)
Definition api_messages (authorization : option string) (now : Z)
    (req : MessageRequest) (fs : Storage) : Response * Storage :=
  match verifyToken authorization now with
  | inl r => (r, fs)
  | inr user => messages_router user req fs
  end.

(** *** The vocabulary of the properties below *)

(** The header reads [Bearer <token>]: the word, one space, and a token
    without a space. *)
Definition bearerShape (authHeader : string) : Prop :=
  exists token,
    authHeader = "Bearer " ++ token /\ Js.includes " " token = false.

(** The token parses and carries the signature of its payload under the
    secret of this server. *)
Definition signatureValid (token : string) : bool :=
  match jws_parse token with
  | Some jws =>
      (jws_signature jws =? hmacSha256 JWT_SECRET (jws_payload jws))%string
  | None => false
  end.

(** The clock, in seconds, has reached the [exp] claim of the token. *)
Definition expiredAt (token : string) (now : Z) : bool :=
  match jws_parse token with
  | Some jws =>
      match Claims.exp (jws_payload jws) with
      | Some exp => exp <=? now / 1000
      | None => false
      end
  | None => false
  end.

(** The reasons for which a request is turned away. *)
Definition tokenMissing (authorization : option string) : Prop :=
  authorization = None \/ authorization = Some ""
  \/ authorization = Some "Bearer ".

Definition headerMalformed (authorization : option string) : Prop :=
  exists authHeader,
    authorization = Some authHeader /\ ~ bearerShape authHeader.

Definition tokenRejected (authorization : option string) (now : Z) : Prop :=
  exists token,
    authorization = Some ("Bearer " ++ token)
    /\ Js.includes " " token = false
    /\ (signatureValid token = false \/ expiredAt token now = true).

(** SERVICEM8_API_KEY is set, so [createApiClient] builds a client. *)
Definition apiKeySet (key : option string) : bool :=
  match key with
  | Some apiKey => negb (apiKey =? "")%string
  | None => false
  end.

(** The job the upstream system holds under [id]: what a request with
    the configured key answers, if it answers with a job at all. *)
Definition upstreamJob (key : option string) (api : Upstream)
    (id : string) : option Job.t :=
  if apiKeySet key then
    match job_by_id api id with
    | Some (Some job) => Some job
    | _ => None
    end
  else None.

(** The request for one job does not come back: no key, or it throws. *)
Definition upstreamJobFails (key : option string) (api : Upstream)
    (id : string) : Prop :=
  apiKeySet key = false \/ job_by_id api id = None.

(** The listing of all jobs does not come back. *)
Definition upstreamListFails (key : option string) (api : Upstream) : Prop :=
  apiKeySet key = false \/ job_json api = None.

(** A sequence of requests to the message router, each with the
    identity of its caller, run against the storage file in order. *)
Fixpoint messages_run (reqs : list (Claims.t * MessageRequest))
    (fs : Storage) : list Response * Storage :=
  match reqs with
  | [] => ([], fs)
  | (user, req) :: reqs' =>
      let (r, fs1) := messages_router user req fs in
      let (rs, fs2) := messages_run reqs' fs1 in
      (r :: rs, fs2)
  end.

(** Ordering by [createdAt], newest first. *)
Definition newerOrSame (a b : Message.t) : Prop :=
  Message.createdAt b <= Message.createdAt a.

(** [router.get('/booking/:bookingId', verifyToken, ...)] of the
    attachments routes. *)
Definition api_attachments_list (key : option string) (api : Upstream)
    (files : AttachmentApi) (authorization : option string) (now : Z)
    (bookingId : string) : AttachmentsAnswer :=
  match verifyToken authorization now with
  | inl r => AttachmentsFailure r
  | inr user => attachments_list key api files bookingId
  end.

(** The Authorization header the API client of the pages builds from
    what [getToken()] returns: [token && `Bearer ${token}`]. *)
Definition authorizationOf (token : option string) : option string :=
  match token with
  | Some t => if (t =? "")%string then None else Some ("Bearer " ++ t)
  | None => None
  end.

(* ================================================================ *)
(** ** Properties of the JavaScript primitives *)
(* ================================================================ *)

Lemma split_not_nil (sep : ascii) (s : string) : Js.split sep s <> [].
Proof.
  destruct s as [|c r]; simpl; [discriminate|].
  destruct (Ascii.eqb c sep); [discriminate|].
  destruct (Js.split sep r); discriminate.
Qed.

Lemma split_clean (sep : ascii) (s : string) :
  Js.includes sep s = false -> Js.split sep s = [s].
Proof.
  induction s as [|c r IH]; simpl; intros H; [reflexivity|].
  apply orb_false_iff in H as [Hc Hr].
  rewrite Hc, (IH Hr). reflexivity.
Qed.

Lemma split_app (sep : ascii) (s1 s2 : string) :
  Js.includes sep s1 = false ->
  Js.split sep (s1 ++ String sep s2) = s1 :: Js.split sep s2.
Proof.
  induction s1 as [|c r IH]; simpl; intros H.
  - rewrite Ascii.eqb_refl. reflexivity.
  - apply orb_false_iff in H as [Hc Hr].
    rewrite Hc, (IH Hr). reflexivity.
Qed.

(** Joining the parts with the separator gives the string back. *)
Lemma split_join (sep : ascii) (s : string) :
  String.concat (String sep "") (Js.split sep s) = s.
Proof.
  induction s as [|c r IH]; [reflexivity|].
  pose proof (split_not_nil sep r) as Hne.
  simpl. destruct (Ascii.eqb c sep) eqn:Hc.
  - apply Ascii.eqb_eq in Hc. subst c.
    destruct (Js.split sep r) as [|p ps]; [congruence|].
    change (String.concat (String sep "") ("" :: p :: ps))
      with (String sep (String.concat (String sep "") (p :: ps))).
    now rewrite IH.
  - destruct (Js.split sep r) as [|p ps]; [congruence|].
    rewrite <- IH. destruct ps; reflexivity.
Qed.

(** No part holds the separator. *)
Lemma split_parts (sep : ascii) (s : string) :
  Forall (fun p => Js.includes sep p = false) (Js.split sep s).
Proof.
  induction s as [|c r IH]; simpl.
  - repeat constructor.
  - destruct (Ascii.eqb c sep) eqn:Hc.
    + constructor; [reflexivity | exact IH].
    + destruct (Js.split sep r) as [|p ps]; [repeat constructor; simpl; now rewrite Hc|].
      inversion IH as [|? ? Hp Hps]; subst.
      constructor; [simpl; now rewrite Hc, Hp | exact Hps].
Qed.

Lemma split_two (sep : ascii) (s p0 p1 : string) :
  Js.split sep s = [p0; p1] <->
  s = p0 ++ String sep p1
  /\ Js.includes sep p0 = false /\ Js.includes sep p1 = false.
Proof.
  split.
  - intros H.
    pose proof (split_join sep s) as Hj.
    pose proof (split_parts sep s) as Hp.
    rewrite H in Hj, Hp. simpl in Hj.
    inversion Hp as [|? ? Hc0 Hp'].
    inversion Hp' as [|? ? Hc1 _].
    auto.
  - intros (-> & H0 & H1).
    rewrite (split_app _ _ _ H0), (split_clean _ _ H1). reflexivity.
Qed.

(** The test of the middleware on [parts] is the shape
    [Bearer <token>], and [parts[1]] is that token. *)
Lemma bearer_parts (authHeader : string) :
  let parts := Js.split " " authHeader in
  negb (Nat.eqb (List.length parts) 2)
  || negb (nth 0 parts "" =? "Bearer")%string = false
  <-> bearerShape authHeader.
Proof.
  cbv zeta. rewrite orb_false_iff, !negb_false_iff.
  rewrite Nat.eqb_eq, String.eqb_eq. split.
  - intros [Hlen H0].
    destruct (Js.split " " authHeader) as [|p0 [|p1 [|p2 ps]]] eqn:Hs;
      simpl in Hlen; try discriminate.
    simpl in H0. subst p0.
    apply split_two in Hs as (-> & _ & H1).
    exists p1. auto.
  - intros (token & -> & Hclean).
    change ("Bearer " ++ token) with ("Bearer" ++ String " " token).
    rewrite split_app by reflexivity.
    rewrite (split_clean _ _ Hclean). auto.
Qed.

Lemma bearer_token (token : string) :
  Js.includes " " token = false ->
  Js.split " " ("Bearer " ++ token) = ["Bearer"; token].
Proof.
  intros Hclean.
  change ("Bearer " ++ token) with ("Bearer" ++ String " " token).
  rewrite split_app by reflexivity.
  now rewrite (split_clean _ _ Hclean).
Qed.

(* ================================================================ *)
(** ** middleware/auth.js *)
(* ================================================================ *)

(** [jwt.verify] under the server's secret, by the three tests of the
    vocabulary. *)
Lemma jwt_verify_cases (token : string) (now : Z) :
  jwt_verify token JWT_SECRET now =
  if (token =? "")%string then inl JsonWebTokenError
  else if negb (signatureValid token) then inl JsonWebTokenError
  else if expiredAt token now then inl TokenExpiredError
  else match jws_parse token with
       | Some jws => inr (jws_payload jws)
       | None => inl JsonWebTokenError
       end.
Proof.
  unfold jwt_verify, signatureValid, expiredAt.
  destruct (token =? "")%string; [reflexivity|].
  destruct (jws_parse token) as [jws|]; [|reflexivity].
  destruct (jws_signature jws =? _)%string; [|reflexivity]. simpl.
  destruct (Claims.exp (jws_payload jws)) as [e|]; [|reflexivity].
  rewrite Z.geb_leb. reflexivity.
Qed.

Lemma verifyToken_bearer (token : string) (now : Z) :
  Js.includes " " token = false ->
  verifyToken (Some ("Bearer " ++ token)) now =
  match jwt_verify token JWT_SECRET now with
  | inr decoded => inr decoded
  | inl TokenExpiredError => inl (unauthorized "Token has expired")
  | inl JsonWebTokenError => inl (unauthorized "Invalid token")
  end.
Proof.
  intros Hclean. unfold verifyToken.
  change ("Bearer " ++ token =? "")%string with false. cbv iota.
  rewrite (bearer_token _ Hclean). reflexivity.
Qed.

Lemma verifyToken_malformed (authHeader : string) (now : Z) :
  ~ bearerShape authHeader ->
  exists message,
    verifyToken (Some authHeader) now = inl (unauthorized message).
Proof.
  intros Hshape. unfold verifyToken.
  destruct (authHeader =? "")%string; [eauto|].
  destruct (negb (Nat.eqb (List.length (Js.split " " authHeader)) 2)
            || negb (nth 0 (Js.split " " authHeader) "" =? "Bearer")%string)
    eqn:Htest; [eauto|].
  apply bearer_parts in Htest. contradiction.
Qed.

(** Whatever the middleware answers by itself is a 401 Unauthorized. *)
Lemma verifyToken_only_unauthorized (authorization : option string)
    (now : Z) (r : Response) :
  verifyToken authorization now = inl r ->
  exists message, r = unauthorized message.
Proof.
  unfold verifyToken. destruct authorization as [h|].
  - destruct (h =? "")%string; [intros [= <-]; eauto|].
    destruct (_ || _); [intros [= <-]; eauto|].
    destruct (jwt_verify _ _ _) as [[]|]; intros [= <-]; eauto.
  - intros [= <-]; eauto.
Qed.

(** C5.  The middleware answers 401 Unauthorized exactly when the token
    is missing (no header, an empty header, or [Bearer] followed by
    nothing), the header is not of the shape [Bearer <token>], or the
    token is rejected: its signature is not valid, or the clock has
    reached its expiry instant.  On every other input it calls [next()]
    with [req.user] the claims the token embeds. *)
Theorem verifyToken_unauthorized_iff (authorization : option string)
    (now : Z) :
  ((exists message,
       verifyToken authorization now = inl (unauthorized message))
   <-> tokenMissing authorization \/ headerMalformed authorization
       \/ tokenRejected authorization now)
  /\ (~ (tokenMissing authorization \/ headerMalformed authorization
         \/ tokenRejected authorization now) ->
      exists token jws,
        authorization = Some ("Bearer " ++ token)
        /\ jws_parse token = Some jws
        /\ signatureValid token = true
        /\ expiredAt token now = false
        /\ verifyToken authorization now = inr (jws_payload jws)).
Proof.
  assert (Hcases :
    (tokenMissing authorization \/ headerMalformed authorization
     \/ tokenRejected authorization now)
    \/ exists token jws,
        authorization = Some ("Bearer " ++ token)
        /\ jws_parse token = Some jws
        /\ signatureValid token = true
        /\ expiredAt token now = false
        /\ verifyToken authorization now = inr (jws_payload jws)).
  { destruct authorization as [h|]; [|left; left; left; reflexivity].
    destruct (negb (Nat.eqb (List.length (Js.split " " h)) 2)
              || negb (nth 0 (Js.split " " h) "" =? "Bearer")%string)
      eqn:Htest.
    - left; right; left. exists h. split; [reflexivity|].
      intros Hshape. apply bearer_parts in Hshape. congruence.
    - apply bearer_parts in Htest as (token & -> & Hclean).
      rewrite (verifyToken_bearer _ now Hclean), jwt_verify_cases.
      destruct (token =? "")%string eqn:Hempty.
      { apply String.eqb_eq in Hempty. subst token.
        left; left; right; right. reflexivity. }
      destruct (signatureValid token) eqn:Hsig; simpl.
      2:{ left; right; right. exists token. auto. }
      destruct (expiredAt token now) eqn:Hexp.
      { left; right; right. exists token. auto. }
      right. exists token.
      destruct (jws_parse token) as [jws|] eqn:Hparse.
      2:{ unfold signatureValid in Hsig. rewrite Hparse in Hsig.
          discriminate. }
      exists jws. auto 6. }
  split; [split|].
  - intros [message Hv].
    destruct Hcases as [H|(token & jws & _ & _ & _ & _ & Hok)];
      [exact H | congruence].
  - intros [Hmiss|[Hmal|Hrej]].
    + destruct Hmiss as [->|[->| ->]]; eexists; reflexivity.
    + destruct Hmal as (h & -> & Hshape).
      now apply verifyToken_malformed.
    + destruct Hrej as (token & -> & Hclean & Hbad).
      rewrite (verifyToken_bearer _ now Hclean), jwt_verify_cases.
      destruct (token =? "")%string; [eauto|].
      destruct Hbad as [-> | Hexp]; simpl; [eauto|].
      destruct (signatureValid token); simpl; [|eauto].
      rewrite Hexp. eauto.
  - intros Hnot. destruct Hcases as [H|H]; [contradiction | exact H].
Qed.

(* ================================================================ *)
(** ** routes/auth.js *)
(* ================================================================ *)

(** What the serialization of a token has to provide: it is never empty
    and parsing reads back what was written. *)
Hypothesis jws_serialize_not_empty : forall jws, jws_serialize jws <> "".
Hypothesis jws_parse_serialize :
  forall jws, jws_parse (jws_serialize jws) = Some jws.

(** A token this server signs verifies, with its payload, for as long
    as the clock is below the expiry. *)
Lemma jwt_verify_sign (customerId email firstName lastName secret : string)
    (expiresIn now later : Z) :
  later / 1000 < now / 1000 + expiresIn ->
  jwt_verify (jwt_sign customerId email firstName lastName secret
                       expiresIn now) secret later
  = inr (Claims.mk customerId email firstName lastName (now / 1000)
                   (Some (now / 1000 + expiresIn))).
Proof.
  intros Hfresh. unfold jwt_verify, jwt_sign.
  destruct (jws_serialize _ =? "")%string eqn:Hempty.
  - apply String.eqb_eq in Hempty.
    now apply jws_serialize_not_empty in Hempty.
  - rewrite jws_parse_serialize. simpl.
    rewrite String.eqb_refl. simpl.
    destruct (later / 1000 >=? now / 1000 + expiresIn) eqn:Hge;
      [|reflexivity].
    rewrite Z.geb_leb in Hge. apply Z.leb_le in Hge. lia.
Qed.

Lemma normalizeEmail_not_empty (email : string) :
  normalizeEmail email <> "" -> Js.truthy (Js.Str email) = true.
Proof. destruct email; [intros H; now elim H | reflexivity]. Qed.

Lemma normalizePhone_not_empty (phone : string) :
  normalizePhone phone <> "" -> Js.truthy (Js.Str phone) = true.
Proof. destruct phone; [intros H; now elim H | reflexivity]. Qed.

(** On the stored customers the predicate of [find] is equality with the
    stored email and phone. *)
Lemma credentialsMatch_stored (normalizedEmail normalizedPhone : string)
    (c : Customer.t) :
  In c mockCustomers ->
  credentialsMatch normalizedEmail normalizedPhone c = true <->
  normalizedEmail = Customer.email c /\ normalizedPhone = Customer.phone c.
Proof.
  intros Hin. unfold credentialsMatch.
  rewrite andb_true_iff, !String.eqb_eq.
  assert (Hlow : Js.toLowerCase (Customer.email c) = Customer.email c).
  { destruct Hin as [<-|[<-|[]]]; reflexivity. }
  rewrite Hlow. intuition congruence.
Qed.

(** C1.  For string values of [email] and [phone]: when the normalized
    pair is the email and phone of a stored customer, the login answers
    200 with a token which [jwt.verify] accepts, at any instant before
    the expiry, with claims carrying that customer's id, email,
    firstName and lastName; when both values are present (not empty) and
    the normalized pair is that of no stored customer, the login answers
    401 Unauthorized with one fixed body, whichever field was wrong. *)
Theorem login_credentials (email phone : string) (now : Z) :
  (forall c,
      In c mockCustomers ->
      normalizeEmail email = Customer.email c ->
      normalizePhone phone = Customer.phone c ->
      exists token,
        login (Js.Str email) (Js.Str phone) now
        = res 200 (LoginBody "Login successful" token
                     (PublicCustomer.mk (Customer.id c) (Customer.email c)
                        (Customer.firstName c) (Customer.lastName c)))
        /\ forall later,
            later / 1000 < now / 1000 + TOKEN_EXPIRY ->
            exists claims,
              jwt_verify token JWT_SECRET later = inr claims
              /\ Claims.customerId claims = Customer.id c
              /\ Claims.email claims = Customer.email c
              /\ Claims.firstName claims = Customer.firstName c
              /\ Claims.lastName claims = Customer.lastName c)
  /\ (email <> "" -> phone <> "" ->
      (forall c,
          In c mockCustomers ->
          ~ (normalizeEmail email = Customer.email c
             /\ normalizePhone phone = Customer.phone c)) ->
      login (Js.Str email) (Js.Str phone) now
      = res 401 (ErrorBody "Unauthorized" "Invalid email or phone number")).
Proof.
  split.
  - intros c Hin Hemail Hphone.
    assert (Hfound :
      find (credentialsMatch (normalizeEmail email) (normalizePhone phone))
           mockCustomers = Some c).
    { rewrite Hemail, Hphone.
      destruct Hin as [<-|[<-|[]]]; reflexivity. }
    unfold login.
    rewrite normalizeEmail_not_empty, normalizePhone_not_empty.
    + cbn [negb orb]. cbv zeta. rewrite Hfound. eexists. split; [reflexivity|].
      intros later Hfresh. eexists. split.
      * now apply jwt_verify_sign.
      * repeat split.
    + rewrite Hphone. destruct Hin as [<-|[<-|[]]]; discriminate.
    + rewrite Hemail. destruct Hin as [<-|[<-|[]]]; discriminate.
  - intros Hemail Hphone Hnone. unfold login.
    destruct email as [|e es]; [now elim Hemail|].
    destruct phone as [|p ps]; [now elim Hphone|].
    cbn [Js.truthy String.eqb negb orb].
    destruct (find _ mockCustomers) as [c|] eqn:Hfind; [|reflexivity].
    apply find_some in Hfind as [Hin Hmatch].
    apply (credentialsMatch_stored _ _ _ Hin) in Hmatch.
    elim (Hnone c Hin). intuition.
Qed.

(* ================================================================ *)
(** ** Array.prototype.sort *)
(* ================================================================ *)

Section SortProperties.
Context {A : Type} (compare : A -> A -> Z).

Lemma insert_perm (x : A) (l : list A) :
  Permutation (x :: l) (Js.insert compare x l).
Proof.
  induction l as [|y l IH]; simpl; [reflexivity|].
  destruct (compare x y <=? 0); [reflexivity|].
  rewrite perm_swap. now constructor.
Qed.

Lemma sort_perm (l : list A) : Permutation l (Js.sort compare l).
Proof.
  induction l as [|x l IH]; simpl; [constructor|].
  rewrite <- insert_perm. now constructor.
Qed.

(** For a comparator that never puts both [x] after [y] and [y] after
    [x], neighbours of the result are in order. *)
Hypothesis compare_total :
  forall x y, 0 < compare x y -> compare y x <= 0.

Let inOrder (x y : A) : Prop := compare x y <= 0.

Lemma insert_sorted (x : A) (l : list A) :
  Sorted inOrder l -> Sorted inOrder (Js.insert compare x l).
Proof.
  induction 1 as [|y l Hl IH Hhd]; simpl.
  - repeat constructor.
  - destruct (compare x y <=? 0) eqn:Hxy.
    + apply Z.leb_le in Hxy. repeat constructor; assumption.
    + apply Z.leb_gt in Hxy. constructor; [exact IH|].
      destruct l as [|z l]; simpl.
      * constructor. now apply compare_total.
      * destruct (compare x z <=? 0); constructor.
        -- now apply compare_total.
        -- now inversion Hhd.
Qed.

Lemma sort_sorted (l : list A) : Sorted inOrder (Js.sort compare l).
Proof.
  induction l as [|x l IH]; simpl; [constructor|].
  now apply insert_sorted.
Qed.
End SortProperties.

Lemma newestFirst_sorted (l : list Message.t) :
  StronglySorted newerOrSame (Js.sort newestFirst l).
Proof.
  apply Sorted_StronglySorted.
  - intros a b c. unfold newerOrSame. lia.
  - assert (H : Sorted (fun x y => newestFirst x y <= 0)
                       (Js.sort newestFirst l)).
    { apply sort_sorted. unfold newestFirst. intros; lia. }
    induction H as [|x s Hs IH Hhd]; constructor; [exact IH|].
    destruct Hhd; constructor. unfold newerOrSame, newestFirst in *. lia.
Qed.

(** The sort is stable: messages of one instant keep the order in
    which the file holds them. *)
Lemma newestFirst_insert_stable (t : Z) (x : Message.t)
    (l : list Message.t) :
  filter (fun m => Message.createdAt m =? t) (Js.insert newestFirst x l)
  = filter (fun m => Message.createdAt m =? t) (x :: l).
Proof.
  induction l as [|y l IH]; [reflexivity|].
  cbn [Js.insert]. unfold newestFirst at 1.
  destruct (Message.createdAt y - Message.createdAt x <=? 0) eqn:Hxy;
    [reflexivity|].
  apply Z.leb_gt in Hxy.
  cbn [filter] in *. rewrite IH.
  destruct (Message.createdAt x =? t) eqn:Hx; [|reflexivity].
  apply Z.eqb_eq in Hx.
  assert (Hy : (Message.createdAt y =? t) = false)
    by (apply Z.eqb_neq; lia).
  now rewrite Hy.
Qed.

Lemma newestFirst_sort_stable (t : Z) (l : list Message.t) :
  filter (fun m => Message.createdAt m =? t) (Js.sort newestFirst l)
  = filter (fun m => Message.createdAt m =? t) l.
Proof.
  induction l as [|x l IH]; [reflexivity|].
  cbn [Js.sort]. rewrite newestFirst_insert_stable.
  cbn [filter]. now rewrite IH.
Qed.

(* ================================================================ *)
(** ** routes/messages.js *)
(* ================================================================ *)

Lemma readMessages_stored (fs : Storage) :
  readMessages fs = (stored fs, ensureStorageExists fs).
Proof. destruct fs; reflexivity. Qed.

Lemma stored_ensure (fs : Storage) :
  stored (ensureStorageExists fs) = stored fs.
Proof. destruct fs; reflexivity. Qed.

Lemma messages_get_booking_eq (user : Claims.t) (bookingId : string)
    (fs : Storage) :
  messages_get_booking user bookingId fs =
  let messages :=
    Js.sort newestFirst
      (filter (fun msg => (Message.bookingId msg =? bookingId)%string)
              (stored fs)) in
  (res 200 (MessagesBody messages (Z.of_nat (List.length messages))),
   ensureStorageExists fs).
Proof.
  unfold messages_get_booking. now rewrite readMessages_stored.
Qed.

Lemma messages_get_all_eq (user : Claims.t) (fs : Storage) :
  messages_get_all user fs =
  let messages :=
    Js.sort newestFirst
      (filter (fun msg =>
                 (Message.customerId msg =? Claims.customerId user)%string)
              (stored fs)) in
  (res 200 (MessagesBody messages (Z.of_nat (List.length messages))),
   ensureStorageExists fs).
Proof.
  unfold messages_get_all. now rewrite readMessages_stored.
Qed.

(** C3.  Whatever the caller, the booking and the state of the file,
    the listing answers 200 with a list that holds exactly the stored
    messages whose [bookingId] is the argument (each as often as it is
    stored, and no other), ordered by [createdAt], newest first. *)
Theorem listForBooking_filtered_sorted (user : Claims.t)
    (bookingId : string) (fs : Storage) :
  exists messages,
    fst (messages_get_booking user bookingId fs)
    = res 200 (MessagesBody messages (Z.of_nat (List.length messages)))
    /\ Permutation
         (filter (fun msg => (Message.bookingId msg =? bookingId)%string)
                 (stored fs))
         messages
    /\ (forall msg,
           In msg messages
           <-> In msg (stored fs) /\ Message.bookingId msg = bookingId)
    /\ StronglySorted newerOrSame messages.
Proof.
  rewrite messages_get_booking_eq. cbv zeta. eexists.
  split; [reflexivity|].
  split; [apply sort_perm|].
  split; [|apply newestFirst_sorted].
  intros msg.
  rewrite <- (Permutation_in' (eq_refl msg) (sort_perm newestFirst _)).
  rewrite filter_In, String.eqb_eq. reflexivity.
Qed.

(** The two outcomes of the send-message handler on a string. *)
Lemma messages_post_booking_cases (user : Claims.t) (bookingId text : string)
    (uuid : string) (now : Z) (fs : Storage) :
  let newMessage :=
    Message.mk uuid bookingId (Claims.customerId user)
      (customerNameOf (Claims.firstName user) (Claims.lastName user))
      (Claims.email user) (Js.trim text) now true in
  messages_post_booking user bookingId (Js.Str text) uuid now fs =
  if (Js.trim text =? "")%string then
    (res 400 (ErrorBody "Bad Request" "Message content is required"), fs)
  else if 2000 <? Js.length text then
    (res 400 (ErrorBody "Bad Request"
                "Message content cannot exceed 2000 characters"), fs)
  else
    (res 201 (MessageSentBody "Message sent successfully" newMessage),
     Some (stored fs ++ [newMessage])%list).
Proof.
  cbv zeta. unfold messages_post_booking.
  rewrite readMessages_stored. unfold writeMessages, Js.length.
  destruct (Js.trim text) as [|c t] eqn:Htrim.
  - simpl. now rewrite orb_true_r.
  - assert (Htext : Js.truthy (Js.Str text) = true).
    { destruct text; [discriminate Htrim | reflexivity]. }
    rewrite Htext.
    change (negb true || (Z.of_nat (String.length (String c t)) =? 0))
      with (Z.of_nat (S (String.length t)) =? 0).
    destruct (Z.of_nat (S (String.length t)) =? 0) eqn:Hz;
      [apply Z.eqb_eq in Hz; lia|].
    change (String c t =? "")%string with false. cbv iota.
    rewrite Z.gtb_ltb. reflexivity.
Qed.

Lemma trim_length_zero (text : string) :
  Js.length (Js.trim text) = 0 <-> Js.trim text = "".
Proof.
  unfold Js.length. destruct (Js.trim text); simpl; split;
    try reflexivity; try discriminate; lia.
Qed.

(** C2.  A message whose content is empty after trimming, or longer
    than 2000 characters, is answered 400 Bad Request and the storage
    file is left exactly as it was. *)
Theorem append_invalid_unchanged (user : Claims.t) (bookingId text : string)
    (uuid : string) (now : Z) (fs : Storage) :
  Js.length (Js.trim text) = 0 \/ Js.length text > 2000 ->
  exists message,
    messages_post_booking user bookingId (Js.Str text) uuid now fs
    = (res 400 (ErrorBody "Bad Request" message), fs).
Proof.
  intros Hbad. rewrite messages_post_booking_cases.
  destruct (Js.trim text =? "")%string eqn:Hempty; [eauto|].
  destruct Hbad as [Hzero|Hlong].
  - apply trim_length_zero in Hzero. apply String.eqb_neq in Hempty.
    contradiction.
  - assert (Hlt : (2000 <? Js.length text) = true) by (apply Z.ltb_lt; lia).
    rewrite Hlt. eauto.
Qed.

(** A 201 comes from a string, and fixes the record and the new file. *)
Lemma messages_post_booking_201 (user : Claims.t) (bookingId : string)
    (content : Js.value) (uuid : string) (now : Z) (fs fs' : Storage)
    (r : Response) :
  messages_post_booking user bookingId content uuid now fs = (r, fs') ->
  status r = 201 ->
  exists text,
    content = Js.Str text
    /\ Js.trim text <> "" /\ Js.length text <= 2000
    /\ let newMessage :=
         Message.mk uuid bookingId (Claims.customerId user)
           (customerNameOf (Claims.firstName user) (Claims.lastName user))
           (Claims.email user) (Js.trim text) now true in
       r = res 201 (MessageSentBody "Message sent successfully" newMessage)
       /\ fs' = Some (stored fs ++ [newMessage])%list.
Proof.
  destruct content as [| |b|n|text|];
    try (intros [= <- <-]; discriminate).
  rewrite messages_post_booking_cases. cbv zeta.
  destruct (Js.trim text =? "")%string eqn:Hempty;
    [intros [= <- <-]; discriminate|].
  destruct (2000 <? Js.length text) eqn:Hlong;
    [intros [= <- <-]; discriminate|].
  intros [= <- <-] _. exists text.
  apply String.eqb_neq in Hempty. apply Z.ltb_ge in Hlong. auto.
Qed.

(** Any other answer of the handler leaves the file as it was. *)
Lemma messages_post_booking_not_201 (user : Claims.t) (bookingId : string)
    (content : Js.value) (uuid : string) (now : Z) (fs fs' : Storage)
    (r : Response) :
  messages_post_booking user bookingId content uuid now fs = (r, fs') ->
  status r <> 201 -> fs' = fs.
Proof.
  destruct content as [| |b|n|text|]; try (now intros [= <- <-]).
  rewrite messages_post_booking_cases. cbv zeta.
  destruct (Js.trim text =? "")%string; [now intros [= <- <-]|].
  destruct (2000 <? Js.length text); [now intros [= <- <-]|].
  intros [= <- <-] H. now elim H.
Qed.

(** C10.  On a string [text] the handler answers 201 exactly when
    [text.trim()] is not empty and the length of [text] itself, not
    trimmed, is at most 2000; the record it then returns and appends to
    the file carries [text.trim()] as its content. *)
Theorem append_content_trimmed (user : Claims.t) (bookingId text : string)
    (uuid : string) (now : Z) (fs : Storage) :
  let r := messages_post_booking user bookingId (Js.Str text) uuid now fs in
  (status (fst r) = 201 <-> Js.trim text <> "" /\ Js.length text <= 2000)
  /\ ((exists data,
          r = (res 201 (MessageSentBody "Message sent successfully" data),
               Some (stored fs ++ [data])%list)
          /\ Message.content data = Js.trim text)
      \/ (exists message,
             r = (res 400 (ErrorBody "Bad Request" message), fs))).
Proof.
  cbv zeta. rewrite messages_post_booking_cases. cbv zeta.
  destruct (Js.trim text =? "")%string eqn:Hempty.
  { apply String.eqb_eq in Hempty. split; [|eauto].
    simpl. split; [discriminate | intros [H _]; contradiction]. }
  apply String.eqb_neq in Hempty.
  destruct (2000 <? Js.length text) eqn:Hlong.
  { apply Z.ltb_lt in Hlong. split; [|eauto].
    simpl. split; [discriminate | intros [_ H]; lia]. }
  apply Z.ltb_ge in Hlong. split.
  - simpl. split; auto.
  - left. eexists. split; reflexivity.
Qed.

(** One request to the message router either answers 201 and appends
    the record it returns, or leaves the stored records as they were. *)
Lemma messages_router_step (user : Claims.t) (req : MessageRequest)
    (fs : Storage) :
  let out := messages_router user req fs in
  (exists note data,
      fst out = res 201 (MessageSentBody note data)
      /\ stored (snd out) = (stored fs ++ [data])%list)
  \/ (status (fst out) <> 201 /\ stored (snd out) = stored fs).
Proof.
  cbv zeta.
  destruct req as [bookingId|bookingId content uuid now|];
    cbn [messages_router].
  - right. rewrite messages_get_booking_eq. simpl.
    split; [discriminate | apply stored_ensure].
  - destruct (messages_post_booking user bookingId content uuid now fs)
      as [r fs'] eqn:Hpost. simpl.
    destruct (Z.eq_dec (status r) 201) as [H201|Hnot].
    + left.
      destruct (messages_post_booking_201 _ _ _ _ _ _ _ _ Hpost H201)
        as (text & _ & _ & _ & -> & ->).
      do 2 eexists. split; reflexivity.
    + right. split; [exact Hnot|].
      now rewrite (messages_post_booking_not_201 _ _ _ _ _ _ _ _ Hpost Hnot).
  - right. rewrite messages_get_all_eq. simpl.
    split; [discriminate | apply stored_ensure].
Qed.

(** Whatever the requests, the records stored before them are a prefix
    of the records stored after, and a request adds at most one. *)
Lemma messages_run_prefix (reqs : list (Claims.t * MessageRequest))
    (fs : Storage) :
  exists added,
    stored (snd (messages_run reqs fs)) = (stored fs ++ added)%list
    /\ (List.length added <= List.length reqs)%nat.
Proof.
  revert fs. induction reqs as [|[user req] reqs IH]; intros fs; simpl.
  - exists []. rewrite app_nil_r. auto.
  - pose proof (messages_router_step user req fs) as Hstep.
    destruct (messages_router user req fs) as [r fs1]. simpl in Hstep.
    destruct (IH fs1) as (added & Heq & Hlen).
    destruct (messages_run reqs fs1) as [rs fs2]. simpl in *.
    destruct Hstep as [(note & data & _ & H1)|[_ H1]]; rewrite H1 in Heq.
    + exists (data :: added). rewrite <- app_assoc in Heq.
      split; [exact Heq | simpl; lia].
    + exists added. split; [exact Heq | lia].
Qed.

(** A stored message is in the listing of its booking, and in the
    listing of its author's messages. *)
Lemma stored_listed_for_booking (reader : Claims.t) (fs : Storage)
    (msg : Message.t) :
  In msg (stored fs) ->
  exists messages count,
    fst (messages_get_booking reader (Message.bookingId msg) fs)
    = res 200 (MessagesBody messages count)
    /\ In msg messages.
Proof.
  intros Hin. rewrite messages_get_booking_eq. cbv zeta.
  do 2 eexists. split; [reflexivity|].
  apply (Permutation_in _ (sort_perm newestFirst _)).
  apply filter_In. split; [exact Hin | apply String.eqb_refl].
Qed.

Lemma stored_listed_for_customer (reader : Claims.t) (fs : Storage)
    (msg : Message.t) :
  In msg (stored fs) ->
  Claims.customerId reader = Message.customerId msg ->
  exists messages count,
    fst (messages_get_all reader fs) = res 200 (MessagesBody messages count)
    /\ In msg messages.
Proof.
  intros Hin Hauthor. rewrite messages_get_all_eq. cbv zeta.
  do 2 eexists. split; [reflexivity|].
  apply (Permutation_in _ (sort_perm newestFirst _)).
  apply filter_In. split; [exact Hin|].
  rewrite Hauthor. apply String.eqb_refl.
Qed.

(** C4.  After a successful append, and after any further requests to
    the message router, the listing for the same booking, asked by any
    caller, holds the very record the append returned (hence with the
    content it returned, which is the trimmed text), and so does the
    listing of all messages of the author's [customerId]. *)
Theorem append_then_listed (user : Claims.t) (bookingId : string)
    (content : Js.value) (uuid : string) (now : Z) (fs fs' : Storage)
    (note : string) (data : Message.t)
    (reqs : list (Claims.t * MessageRequest)) :
  messages_post_booking user bookingId content uuid now fs
  = (res 201 (MessageSentBody note data), fs') ->
  let later := snd (messages_run reqs fs') in
  (forall reader, exists messages count,
      fst (messages_get_booking reader bookingId later)
      = res 200 (MessagesBody messages count)
      /\ In data messages)
  /\ (forall reader,
         Claims.customerId reader = Claims.customerId user ->
         exists messages count,
           fst (messages_get_all reader later)
           = res 200 (MessagesBody messages count)
           /\ In data messages)
  /\ (exists text,
         content = Js.Str text /\ Message.content data = Js.trim text).
Proof.
  intros Hpost later.
  destruct (messages_post_booking_201 _ _ _ _ _ _ _ _ Hpost eq_refl)
    as (text & -> & _ & _ & Hr & ->).
  injection Hr as _ ->.
  assert (Hin : In (Message.mk uuid bookingId (Claims.customerId user)
                      (customerNameOf (Claims.firstName user)
                                      (Claims.lastName user))
                      (Claims.email user) (Js.trim text) now true)
                   (stored later)).
  { destruct (messages_run_prefix reqs
                (Some (stored fs
                       ++ [Message.mk uuid bookingId (Claims.customerId user)
                             (customerNameOf (Claims.firstName user)
                                             (Claims.lastName user))
                             (Claims.email user) (Js.trim text) now true])
                      %list))
      as (added & Heq & _).
    subst later. rewrite Heq. simpl.
    apply in_or_app. left. apply in_or_app. right. now left. }
  split; [|split].
  - intros reader.
    exact (stored_listed_for_booking reader later _ Hin).
  - intros reader Hsame.
    exact (stored_listed_for_customer reader later _ Hin Hsame).
  - exists text. split; reflexivity.
Qed.

(** C8.  A request to the message router that answers 201 leaves every
    stored record where it was and adds exactly one record, the one it
    returns, at the end; every other request leaves the stored records
    as they were.  Hence after any sequence of requests, by any
    callers, the records stored before are still there, in their
    places and unchanged: nothing updates or deletes a message. *)
Theorem message_log_append_only :
  (forall user req fs,
      let out := messages_router user req fs in
      (exists note data,
          fst out = res 201 (MessageSentBody note data)
          /\ stored (snd out) = (stored fs ++ [data])%list)
      \/ (status (fst out) <> 201 /\ stored (snd out) = stored fs))
  /\ (forall reqs fs,
         exists added,
           stored (snd (messages_run reqs fs)) = (stored fs ++ added)%list
           /\ (List.length added <= List.length reqs)%nat
           /\ forall i msg,
               nth_error (stored fs) i = Some msg ->
               nth_error (stored (snd (messages_run reqs fs))) i = Some msg).
Proof.
  split; [exact messages_router_step|].
  intros reqs fs. destruct (messages_run_prefix reqs fs) as (added & Heq & Hlen).
  exists added. repeat split; try assumption.
  intros i msg Hnth. rewrite Heq.
  rewrite nth_error_app1; [exact Hnth|].
  apply nth_error_Some. congruence.
Qed.

(** C9.  With two valid sessions, of whatever customers, the listing of
    the messages of a booking gives the same answer and leaves the same
    file: the caller's identity plays no part.  The answer is the stored
    messages filtered by [bookingId] and by nothing else: it holds every
    stored message of that booking, whoever wrote it, each as often as
    it is stored, and no message of another booking, newest first. *)
Theorem messages_for_booking_any_caller
    (authorization1 authorization2 : option string) (now1 now2 : Z)
    (user1 user2 : Claims.t) (bookingId : string) (fs : Storage) :
  verifyToken authorization1 now1 = inr user1 ->
  verifyToken authorization2 now2 = inr user2 ->
  api_messages authorization1 now1 (GetBooking bookingId) fs
  = api_messages authorization2 now2 (GetBooking bookingId) fs
  /\ exists messages count,
      fst (api_messages authorization1 now1 (GetBooking bookingId) fs)
      = res 200 (MessagesBody messages count)
      /\ count = Z.of_nat (List.length messages)
      /\ Permutation
           (filter (fun msg => (Message.bookingId msg =? bookingId)%string)
                   (stored fs))
           messages
      /\ (forall msg,
             In msg messages
             <-> In msg (stored fs) /\ Message.bookingId msg = bookingId)
      /\ StronglySorted newerOrSame messages.
Proof.
  intros H1 H2. unfold api_messages. rewrite H1, H2. cbn [messages_router].
  rewrite !messages_get_booking_eq. cbv zeta.
  split; [reflexivity|].
  do 2 eexists. split; [reflexivity|].
  split; [reflexivity|].
  split; [apply sort_perm|].
  split; [|apply newestFirst_sorted].
  intros msg.
  rewrite <- (Permutation_in' (eq_refl msg) (sort_perm newestFirst _)).
  rewrite filter_In, String.eqb_eq. reflexivity.
Qed.

(* ================================================================ *)
(** ** services/servicem8.js and routes/bookings.js *)
(* ================================================================ *)

Lemma createApiClient_cases (key : option string) (api : Upstream) :
  createApiClient key api = if apiKeySet key then Some api else None.
Proof.
  destruct key as [apiKey|]; [|reflexivity].
  simpl. now destruct (apiKey =? "")%string.
Qed.

Lemma getJobsByCustomerEmail_cases (key : option string) (api : Upstream)
    (email : string) :
  getJobsByCustomerEmail key api email =
  if apiKeySet key then
    match job_json api with
    | Some jobs => jobs
    | None => getMockJobsByEmail email
    end
  else getMockJobsByEmail email.
Proof.
  unfold getJobsByCustomerEmail. rewrite createApiClient_cases.
  now destruct (apiKeySet key).
Qed.

Lemma getJobById_cases (key : option string) (api : Upstream)
    (id : string) :
  getJobById key api id =
  if apiKeySet key then
    match job_by_id api id with
    | Some data => data
    | None => getMockJobById id
    end
  else getMockJobById id.
Proof.
  unfold getJobById. rewrite createApiClient_cases.
  now destruct (apiKeySet key).
Qed.

Lemma getMockJobById_unknown (id : string) :
  (forall job, In job getMockJobs -> Job.uuid job <> id) ->
  getMockJobById id = None.
Proof.
  intros Hnone. unfold getMockJobById. cbv zeta.
  destruct (find _ getMockJobs) as [job|] eqn:Hfind; [|reflexivity].
  apply find_some in Hfind as [Hin Heq].
  apply String.eqb_eq in Heq. now elim (Hnone job Hin).
Qed.

Lemma getMockJobById_known (job : Job.t) :
  In job getMockJobs ->
  getMockJobById (Job.uuid job) = Some (withMockDetails job).
Proof.
  intros [<-|[<-|[<-|[]]]]; reflexivity.
Qed.

(** C6, as the code has it.  When the upstream listing answers, every
    customer is sent the same bookings, one for each upstream job: the
    email is passed along but restricts nothing.  When the listing
    falls back to the fixed dataset (no API key, or a failed request),
    the customer whose email is customer@example.com, in any letter
    case, is sent the three fallback jobs and every other customer an
    empty list. *)
Theorem bookings_list_by_customer (key : option string) (api : Upstream)
    (user1 user2 : Claims.t) :
  (forall jobs,
      apiKeySet key = true -> job_json api = Some jobs ->
      bookings_list key api user1
      = res 200 (BookingsBody (map toBooking jobs)
                   (Z.of_nat (List.length jobs)))
      /\ bookings_list key api user1 = bookings_list key api user2)
  /\ (upstreamListFails key api ->
      bookings_list key api user1
      = if (Js.toLowerCase (Claims.email user1)
            =? "customer@example.com")%string
        then res 200 (BookingsBody (map toBooking getMockJobs) 3)
        else res 200 (BookingsBody [] 0)).
Proof.
  unfold bookings_list. cbv zeta.
  rewrite !getJobsByCustomerEmail_cases. split.
  - intros jobs -> ->. now rewrite length_map.
  - intros Hfail.
    assert (Hmock :
      (if apiKeySet key then
         match job_json api with
         | Some jobs => jobs
         | None => getMockJobsByEmail (Claims.email user1)
         end
       else getMockJobsByEmail (Claims.email user1))
      = getMockJobsByEmail (Claims.email user1)).
    { destruct Hfail as [-> | ->]; [reflexivity|].
      now destruct (apiKeySet key). }
    rewrite Hmock. unfold getMockJobsByEmail.
    now destruct (_ =? _)%string.
Qed.

(** C7.  For an id that the upstream system does not hold and that no
    job of the fallback dataset carries, [getJobById] returns null and
    the endpoint answers 404 Not Found.  For the id of a fallback job,
    when the upstream request fails, [getJobById] returns that job
    (with the details of the single-job view) and the endpoint answers
    200 with its booking. *)
Theorem booking_lookup_fallback (key : option string) (api : Upstream)
    (id : string) :
  (upstreamJob key api id = None ->
   (forall job, In job getMockJobs -> Job.uuid job <> id) ->
   getJobById key api id = None
   /\ bookings_get key api id
      = res 404 (ErrorBody "Not Found" "Booking not found"))
  /\ (forall job,
         upstreamJobFails key api id ->
         In job getMockJobs -> Job.uuid job = id ->
         getJobById key api id = Some (withMockDetails job)
         /\ bookings_get key api id
            = res 200 (BookingBody (toBookingDetail (withMockDetails job)))).
Proof.
  split.
  - intros Hup Hmock.
    assert (Hnull : getJobById key api id = None).
    { rewrite getJobById_cases. unfold upstreamJob in Hup.
      destruct (apiKeySet key); [|now apply getMockJobById_unknown].
      destruct (job_by_id api id) as [[job|]|];
        [discriminate | reflexivity | now apply getMockJobById_unknown]. }
    unfold bookings_get. now rewrite Hnull.
  - intros job Hfail Hin <-.
    assert (Hjob : getJobById key api (Job.uuid job)
                   = Some (withMockDetails job)).
    { rewrite getJobById_cases.
      destruct Hfail as [-> | Hfail];
        [now apply getMockJobById_known|].
      rewrite Hfail.
      destruct (apiKeySet key); now apply getMockJobById_known. }
    unfold bookings_get. now rewrite Hjob.
Qed.

(* ================================================================ *)
(** ** More on the string primitives *)
(* ================================================================ *)

Lemma toLowerCaseChar_facts (c : ascii) :
  Js.toLowerCaseChar (Js.toLowerCaseChar c) = Js.toLowerCaseChar c
  /\ Js.isWhiteSpace (Js.toLowerCaseChar c) = Js.isWhiteSpace c.
Proof.
  destruct c as [[] [] [] [] [] [] [] []]; vm_compute; split; reflexivity.
Qed.

Lemma toLowerCase_idem (s : string) :
  Js.toLowerCase (Js.toLowerCase s) = Js.toLowerCase s.
Proof.
  induction s as [|c r IH]; [reflexivity|].
  cbn [Js.toLowerCase].
  now rewrite IH, (proj1 (toLowerCaseChar_facts c)).
Qed.

Lemma toLowerCase_empty (s : string) :
  (Js.toLowerCase s =? "")%string = (s =? "")%string.
Proof. destruct s; reflexivity. Qed.

Lemma trimStart_toLowerCase (s : string) :
  Js.trimStart (Js.toLowerCase s) = Js.toLowerCase (Js.trimStart s).
Proof.
  induction s as [|c r IH]; [reflexivity|].
  cbn [Js.toLowerCase Js.trimStart].
  rewrite (proj2 (toLowerCaseChar_facts c)).
  destruct (Js.isWhiteSpace c); [exact IH | reflexivity].
Qed.

Lemma trimEnd_toLowerCase (s : string) :
  Js.trimEnd (Js.toLowerCase s) = Js.toLowerCase (Js.trimEnd s).
Proof.
  induction s as [|c r IH]; [reflexivity|].
  cbn [Js.toLowerCase Js.trimEnd]. cbv zeta.
  rewrite (proj2 (toLowerCaseChar_facts c)), IH, toLowerCase_empty.
  destruct (Js.isWhiteSpace c && (Js.trimEnd r =? "")%string); reflexivity.
Qed.

Lemma trim_toLowerCase (s : string) :
  Js.trim (Js.toLowerCase s) = Js.toLowerCase (Js.trim s).
Proof.
  unfold Js.trim. now rewrite trimStart_toLowerCase, trimEnd_toLowerCase.
Qed.

(** What [trimStart] leaves is empty or starts with a character that
    is no white space. *)
Lemma trimStart_head (s : string) :
  Js.trimStart s = ""
  \/ exists c r, Js.trimStart s = String c r /\ Js.isWhiteSpace c = false.
Proof.
  induction s as [|c r IH]; [now left|].
  cbn [Js.trimStart]. destruct (Js.isWhiteSpace c) eqn:Hc; [exact IH|].
  right. eauto.
Qed.

Lemma trimEnd_idem (s : string) : Js.trimEnd (Js.trimEnd s) = Js.trimEnd s.
Proof.
  induction s as [|c r IH]; [reflexivity|].
  cbn [Js.trimEnd]. cbv zeta.
  destruct (Js.isWhiteSpace c && (Js.trimEnd r =? "")%string) eqn:Hcond;
    [reflexivity|].
  cbn [Js.trimEnd]. cbv zeta. now rewrite IH, Hcond.
Qed.

Lemma trim_idem (s : string) : Js.trim (Js.trim s) = Js.trim s.
Proof.
  unfold Js.trim.
  destruct (trimStart_head s) as [-> | (c & r & -> & Hc)]; [reflexivity|].
  cbn [Js.trimEnd]. cbv zeta. rewrite Hc. cbn [andb Js.trimStart].
  rewrite Hc. cbn [Js.trimEnd]. cbv zeta.
  now rewrite Hc, trimEnd_idem.
Qed.

Lemma trimStart_length (s : string) :
  (String.length (Js.trimStart s) <= String.length s)%nat.
Proof.
  induction s as [|c r IH]; [reflexivity|].
  cbn [Js.trimStart]. destruct (Js.isWhiteSpace c); simpl; lia.
Qed.

Lemma trimEnd_length (s : string) :
  (String.length (Js.trimEnd s) <= String.length s)%nat.
Proof.
  induction s as [|c r IH]; [reflexivity|].
  cbn [Js.trimEnd]. cbv zeta.
  destruct (Js.isWhiteSpace c && (Js.trimEnd r =? "")%string); simpl; lia.
Qed.

Lemma trim_length (s : string) : Js.length (Js.trim s) <= Js.length s.
Proof.
  unfold Js.length, Js.trim.
  pose proof (trimEnd_length (Js.trimStart s)).
  pose proof (trimStart_length s). lia.
Qed.

Lemma trimEnd_empty (s : string) :
  Js.trimEnd s = "" <-> allWhiteSpace s = true.
Proof.
  induction s as [|c r IH]; [easy|].
  cbn [Js.trimEnd allWhiteSpace]. cbv zeta.
  destruct (Js.isWhiteSpace c); cbn [andb].
  - destruct (Js.trimEnd r =? "")%string eqn:Hr.
    + apply String.eqb_eq in Hr. split; [intros _; now apply IH | easy].
    + apply String.eqb_neq in Hr. split; [discriminate|].
      intros H. apply IH in H. contradiction.
  - split; discriminate.
Qed.

Lemma trimStart_allWhiteSpace (s : string) :
  allWhiteSpace (Js.trimStart s) = true <-> allWhiteSpace s = true.
Proof.
  induction s as [|c r IH]; [easy|].
  cbn [Js.trimStart]. destruct (Js.isWhiteSpace c) eqn:Hc.
  - rewrite IH. cbn [allWhiteSpace]. now rewrite Hc.
  - reflexivity.
Qed.

(** [s.trim()] is empty exactly when [s] is blank. *)
Lemma trim_empty (s : string) :
  Js.trim s = "" <-> allWhiteSpace s = true.
Proof.
  unfold Js.trim. now rewrite trimEnd_empty, trimStart_allWhiteSpace.
Qed.

Lemma removeAll_clean (cls : ascii -> bool) (s : string) (c : ascii) :
  cls c = true -> Js.includes c (Js.removeAll cls s) = false.
Proof.
  intros Hc. induction s as [|d r IH]; [reflexivity|].
  cbn [Js.removeAll]. destruct (cls d) eqn:Hd; [exact IH|].
  cbn [Js.includes]. rewrite IH.
  destruct (Ascii.eqb d c) eqn:Hdc; [|reflexivity].
  apply Ascii.eqb_eq in Hdc. congruence.
Qed.

Lemma removeAll_idem (cls : ascii -> bool) (s : string) :
  Js.removeAll cls (Js.removeAll cls s) = Js.removeAll cls s.
Proof.
  induction s as [|d r IH]; [reflexivity|].
  cbn [Js.removeAll]. destruct (cls d) eqn:Hd; [exact IH|].
  cbn [Js.removeAll]. now rewrite Hd, IH.
Qed.

Lemma removeAll_length (cls : ascii -> bool) (s : string) :
  (String.length (Js.removeAll cls s) <= String.length s)%nat.
Proof.
  induction s as [|d r IH]; [reflexivity|].
  cbn [Js.removeAll]. destruct (cls d); simpl; lia.
Qed.

(* ================================================================ *)
(** ** More on routes/auth.js and the middleware *)
(* ================================================================ *)

(** X1.  The login answers 400 exactly when a field is missing or falsy,
    500 exactly when both are given and one is not a string, and 200 or
    401 exactly when both are strings that are not empty. *)
Theorem login_answer_kinds (email phone : Js.value) (now : Z) :
  (login email phone now
   = res 400 (ErrorBody "Bad Request" "Email and phone number are required")
   <-> Js.truthy email = false \/ Js.truthy phone = false)
  /\ (login email phone now
      = res 500 (ErrorBody "Server Error" "An error occurred during login")
      <-> Js.truthy email = true /\ Js.truthy phone = true
          /\ (isString email = false \/ isString phone = false))
  /\ (status (login email phone now) = 200
      \/ status (login email phone now) = 401
      <-> exists e p,
            email = Js.Str e /\ phone = Js.Str p /\ e <> "" /\ p <> "").
Proof.
  assert (Hstr : forall e p,
             e <> "" -> p <> "" ->
             status (login (Js.Str e) (Js.Str p) now) = 200
             \/ status (login (Js.Str e) (Js.Str p) now) = 401).
  { intros e p He Hp. unfold login.
    destruct e as [|a e]; [now elim He|].
    destruct p as [|b p]; [now elim Hp|].
    cbn [Js.truthy String.eqb negb orb]. cbv zeta.
    destruct (find _ mockCustomers); [left | right]; reflexivity. }
  unfold login.
  destruct (Js.truthy email) eqn:Hemail; destruct (Js.truthy phone) eqn:Hphone;
    cbn [negb orb].
  2-4: (split; [split; [auto | reflexivity]|]; split;
        [split; [discriminate | intros (? & ? & _); discriminate]|];
        split; [intros [H|H]; discriminate H|];
        intros (e & p & -> & -> & He & Hp);
        destruct e; destruct p; simpl in *; congruence).
  destruct phone as [| |b|n|p|]; try discriminate Hphone;
    destruct email as [| |b'|n'|e|]; try discriminate Hemail;
    try (split; [split; [discriminate | intros [H|H]; discriminate H]|];
         split; [split; [intros _; cbn; auto | reflexivity]|];
         split; [intros [H|H]; discriminate H|];
         intros (e0 & p0 & He0 & Hp0 & _); discriminate).
  assert (He : e <> "") by (intros ->; discriminate Hemail).
  assert (Hp : p <> "") by (intros ->; discriminate Hphone).
  pose proof (Hstr e p He Hp) as Hst. unfold login in Hst.
  rewrite Hemail, Hphone in Hst. cbn [negb orb] in Hst.
  split; [split; [|intros [H|H]; discriminate H]|].
  { intros Heq. rewrite Heq in Hst. destruct Hst; discriminate. }
  split; [split; [|intros (_ & _ & [H|H]); discriminate H]|].
  { intros Heq. rewrite Heq in Hst. destruct Hst; discriminate. }
  split; [intros _; exists e, p; auto | intros _; exact Hst].
Qed.

(** X2.  The login reads its two strings only through their normal forms:
    inputs that differ in letter case, surrounding blanks or phone
    separators get the same answer. *)
Theorem login_normalized_only (email1 phone1 email2 phone2 : string)
    (now : Z) :
  email1 <> "" -> phone1 <> "" -> email2 <> "" -> phone2 <> "" ->
  normalizeEmail email1 = normalizeEmail email2 ->
  normalizePhone phone1 = normalizePhone phone2 ->
  login (Js.Str email1) (Js.Str phone1) now
  = login (Js.Str email2) (Js.Str phone2) now.
Proof.
  intros He1 Hp1 He2 Hp2 Hemail Hphone. unfold login.
  destruct email1; [now elim He1|]. destruct phone1; [now elim Hp1|].
  destruct email2; [now elim He2|]. destruct phone2; [now elim Hp2|].
  cbn [Js.truthy String.eqb negb orb]. cbv zeta.
  now rewrite Hemail, Hphone.
Qed.

(** X3.  The two normal forms are canonical: normalizing again changes
    nothing, the phone keeps none of the characters of the class and is
    not longer than the input, and the email is in lower case with no
    blank at either end. *)
Theorem normalization_canonical (email phone : string) :
  normalizePhone (normalizePhone phone) = normalizePhone phone
  /\ (forall c, isPhoneSeparator c = true ->
                Js.includes c (normalizePhone phone) = false)
  /\ Js.length (normalizePhone phone) <= Js.length phone
  /\ normalizeEmail (normalizeEmail email) = normalizeEmail email
  /\ Js.toLowerCase (normalizeEmail email) = normalizeEmail email
  /\ Js.trim (normalizeEmail email) = normalizeEmail email.
Proof.
  unfold normalizePhone, normalizeEmail.
  split; [apply removeAll_idem|].
  split; [intros c Hc; now apply removeAll_clean|].
  split.
  { unfold Js.length. pose proof (removeAll_length isPhoneSeparator phone).
    lia. }
  split.
  { rewrite (trim_toLowerCase (Js.trim (Js.toLowerCase email))), trim_idem.
    rewrite (trim_toLowerCase email). apply toLowerCase_idem. }
  split; [rewrite (trim_toLowerCase email); apply toLowerCase_idem|].
  apply trim_idem.
Qed.

(** The login of a stored customer, with the token it signs. *)
Lemma login_found (email phone : string) (now : Z) (c : Customer.t) :
  In c mockCustomers ->
  normalizeEmail email = Customer.email c ->
  normalizePhone phone = Customer.phone c ->
  login (Js.Str email) (Js.Str phone) now
  = res 200
      (LoginBody "Login successful"
         (jwt_sign (Customer.id c) (Customer.email c)
            (Customer.firstName c) (Customer.lastName c)
            JWT_SECRET TOKEN_EXPIRY now)
         (PublicCustomer.mk (Customer.id c) (Customer.email c)
            (Customer.firstName c) (Customer.lastName c))).
Proof.
  intros Hin Hemail Hphone.
  assert (Hfound :
    find (credentialsMatch (normalizeEmail email) (normalizePhone phone))
         mockCustomers = Some c).
  { rewrite Hemail, Hphone.
    destruct Hin as [<-|[<-|[]]]; reflexivity. }
  unfold login.
  rewrite normalizeEmail_not_empty, normalizePhone_not_empty.
  - cbn [negb orb]. cbv zeta. now rewrite Hfound.
  - rewrite Hphone. destruct Hin as [<-|[<-|[]]]; discriminate.
  - rewrite Hemail. destruct Hin as [<-|[<-|[]]]; discriminate.
Qed.

(** From the expiry instant on, a token this server signed is turned
    away as expired. *)
Lemma jwt_verify_sign_expired
    (customerId email firstName lastName secret : string)
    (expiresIn now later : Z) :
  now / 1000 + expiresIn <= later / 1000 ->
  jwt_verify (jwt_sign customerId email firstName lastName secret
                       expiresIn now) secret later
  = inl TokenExpiredError.
Proof.
  intros Hlate. unfold jwt_verify, jwt_sign.
  destruct (jws_serialize _ =? "")%string eqn:Hempty.
  - apply String.eqb_eq in Hempty.
    now apply jws_serialize_not_empty in Hempty.
  - rewrite jws_parse_serialize. simpl.
    rewrite String.eqb_refl. simpl.
    destruct (later / 1000 >=? now / 1000 + expiresIn) eqn:Hge;
      [reflexivity|].
    rewrite Z.geb_leb in Hge. apply Z.leb_gt in Hge. lia.
Qed.

(** The serialization of a token holds no space, so that the token is
    one part of the Authorization header. *)
Hypothesis jws_serialize_no_space :
  forall jws, Js.includes " " (jws_serialize jws) = false.

(** The middleware on the header the client builds from a token of
    the login. *)
Lemma verifyToken_issued (customerId email firstName lastName : string)
    (now later : Z) :
  verifyToken
    (authorizationOf
       (Some (jwt_sign customerId email firstName lastName
                       JWT_SECRET TOKEN_EXPIRY now))) later
  = if later / 1000 <? now / 1000 + TOKEN_EXPIRY
    then inr (Claims.mk customerId email firstName lastName (now / 1000)
                        (Some (now / 1000 + TOKEN_EXPIRY)))
    else inl (unauthorized "Token has expired").
Proof.
  unfold authorizationOf.
  destruct (jwt_sign _ _ _ _ _ _ _ =? "")%string eqn:Hempty.
  { apply String.eqb_eq in Hempty. unfold jwt_sign in Hempty.
    now apply jws_serialize_not_empty in Hempty. }
  rewrite verifyToken_bearer by apply jws_serialize_no_space.
  destruct (later / 1000 <? now / 1000 + TOKEN_EXPIRY) eqn:Hfresh.
  - apply Z.ltb_lt in Hfresh. now rewrite jwt_verify_sign.
  - apply Z.ltb_ge in Hfresh. now rewrite jwt_verify_sign_expired.
Qed.

(** X4.  A session from login to expiry: the token of a successful login,
    sent back as the client sends it, makes [GET /auth/me] answer the
    claims of that customer at every instant whose clock, in seconds,
    is below the expiry, 24 hours after the login; from then on the
    answer is 401 with the message that the token has expired. *)
Theorem login_session_lifetime (email phone : string) (now : Z)
    (c : Customer.t) :
  In c mockCustomers ->
  normalizeEmail email = Customer.email c ->
  normalizePhone phone = Customer.phone c ->
  exists token customer,
    login (Js.Str email) (Js.Str phone) now
    = res 200 (LoginBody "Login successful" token customer)
    /\ forall later,
        auth_me (authorizationOf (Some token)) later
        = if later / 1000 <? now / 1000 + 86400
          then res 200
                 (MeBody (Claims.mk (Customer.id c) (Customer.email c)
                            (Customer.firstName c) (Customer.lastName c)
                            (now / 1000) (Some (now / 1000 + 86400))))
          else res 401 (ErrorBody "Unauthorized" "Token has expired").
Proof.
  intros Hin Hemail Hphone.
  rewrite (login_found _ _ now _ Hin Hemail Hphone).
  do 2 eexists. split; [reflexivity|].
  intros later. unfold auth_me. rewrite verifyToken_issued.
  unfold TOKEN_EXPIRY.
  now destruct (later / 1000 <? now / 1000 + 86400).
Qed.

(** X5.  Behind the middleware nothing runs without a valid session.
    For a request that has reached the routers, [GET /auth/me], the two
    routes of the bookings router, the three routes of the messages
    router and the attachment listing of a booking answer the 401 of
    the middleware, and the storage file is left as it was.  (The
    download and view routes of the attachments router are registered
    without the middleware and are no part of this statement.) *)
Theorem routes_require_session (authorization : option string) (now : Z)
    (key : option string) (api : Upstream) (files : AttachmentApi)
    (id : string) (req : MessageRequest) (fs : Storage) :
  (forall user, verifyToken authorization now <> inr user) ->
  exists message,
    auth_me authorization now = unauthorized message
    /\ api_bookings_list key api authorization now = unauthorized message
    /\ api_bookings_get key api authorization now id = unauthorized message
    /\ api_attachments_list key api files authorization now id
       = AttachmentsFailure (unauthorized message)
    /\ api_messages authorization now req fs = (unauthorized message, fs).
Proof.
  intros Hinvalid.
  unfold auth_me, api_bookings_list, api_bookings_get,
    api_attachments_list, api_messages.
  destruct (verifyToken authorization now) as [r|user] eqn:Hverify.
  - destruct (verifyToken_only_unauthorized _ _ _ Hverify) as [message ->].
    exists message. auto.
  - now elim (Hinvalid user).
Qed.

(* ================================================================ *)
(** ** More on routes/messages.js *)
(* ================================================================ *)

(** X6.  The listing of a customer's own messages answers 200 with exactly
    the stored messages whose [customerId] is the caller's (each as
    often as it is stored, none of another customer), newest first, and
    [count] is their number. *)
Theorem listForCustomer_filtered_sorted (user : Claims.t) (fs : Storage) :
  exists messages,
    fst (messages_get_all user fs)
    = res 200 (MessagesBody messages (Z.of_nat (List.length messages)))
    /\ Permutation
         (filter (fun msg =>
                    (Message.customerId msg
                     =? Claims.customerId user)%string)
                 (stored fs))
         messages
    /\ (forall msg,
           In msg messages
           <-> In msg (stored fs)
               /\ Message.customerId msg = Claims.customerId user)
    /\ StronglySorted newerOrSame messages
    /\ List.length messages
       = List.length
           (filter (fun msg =>
                      (Message.customerId msg
                       =? Claims.customerId user)%string)
                   (stored fs)).
Proof.
  rewrite messages_get_all_eq. cbv zeta. eexists.
  split; [reflexivity|].
  split; [apply sort_perm|].
  split; [|split; [apply newestFirst_sorted|]].
  - intros msg.
    rewrite <- (Permutation_in' (eq_refl msg) (sort_perm newestFirst _)).
    rewrite filter_In, String.eqb_eq. reflexivity.
  - symmetry. apply Permutation_length, sort_perm.
Qed.

(** X7.  Reading is idempotent.  After either listing the file exists and
    holds the records it held (none, if it did not exist), and asking
    again gives the same answer and the same file. *)
Theorem message_reads_idempotent (user : Claims.t) (fs : Storage) :
  (forall bookingId,
      let out := messages_get_booking user bookingId fs in
      snd out = Some (stored fs)
      /\ messages_get_booking user bookingId (snd out) = out)
  /\ (let out := messages_get_all user fs in
      snd out = Some (stored fs)
      /\ messages_get_all user (snd out) = out).
Proof.
  split; [intros bookingId|]; cbv zeta.
  - rewrite !messages_get_booking_eq. cbv zeta. cbn [fst snd].
    destruct fs; split; reflexivity.
  - rewrite !messages_get_all_eq. cbv zeta. cbn [fst snd].
    destruct fs; split; reflexivity.
Qed.

Lemma allWhiteSpace_app (s t : string) :
  allWhiteSpace (s ++ t) = allWhiteSpace s && allWhiteSpace t.
Proof.
  induction s as [|c r IH]; [reflexivity|].
  cbn [String.append allWhiteSpace]. now rewrite IH, andb_assoc.
Qed.

Lemma customerNameOf_not_empty (firstName lastName : string) :
  customerNameOf firstName lastName <> "".
Proof.
  unfold customerNameOf. cbv zeta.
  destruct (Js.trim (firstName ++ " " ++ lastName) =? "")%string eqn:H;
    [discriminate|].
  now apply String.eqb_neq in H.
Qed.

(** X8.  The name stored with a message is never empty and has no blank at
    either end: it is the trimmed [firstName lastName], or [Customer]
    when both names are blank. *)
Theorem customerName_shape (firstName lastName : string) :
  customerNameOf firstName lastName <> ""
  /\ Js.trim (customerNameOf firstName lastName)
     = customerNameOf firstName lastName
  /\ customerNameOf firstName lastName
     = if allWhiteSpace firstName && allWhiteSpace lastName
       then "Customer"
       else Js.trim (firstName ++ " " ++ lastName).
Proof.
  split; [apply customerNameOf_not_empty|].
  assert (Hblank :
    (Js.trim (firstName ++ " " ++ lastName) =? "")%string
    = allWhiteSpace firstName && allWhiteSpace lastName).
  { destruct (allWhiteSpace firstName && allWhiteSpace lastName) eqn:Hws.
    - apply String.eqb_eq, trim_empty.
      rewrite allWhiteSpace_app. cbn [String.append allWhiteSpace].
      apply andb_true_iff in Hws as [-> ->]. reflexivity.
    - apply String.eqb_neq. intros Hempty. apply trim_empty in Hempty.
      rewrite allWhiteSpace_app in Hempty.
      cbn [String.append allWhiteSpace] in Hempty.
      change (Js.isWhiteSpace " ") with true in Hempty.
      cbn [andb] in Hempty. congruence. }
  unfold customerNameOf. cbv zeta. rewrite Hblank.
  destruct (allWhiteSpace firstName && allWhiteSpace lastName);
    split; try reflexivity.
  apply trim_idem.
Qed.

(** What a 201 of the handler stores is well formed. *)
Lemma messages_router_adds (user : Claims.t) (req : MessageRequest)
    (fs : Storage) :
  stored (snd (messages_router user req fs)) = stored fs
  \/ exists data,
      stored (snd (messages_router user req fs))
      = (stored fs ++ [data])%list
      /\ wellFormedMessage data
      /\ match req with
         | PostBooking bookingId _ uuid now =>
             Message.id data = uuid
             /\ Message.bookingId data = bookingId
             /\ Message.createdAt data = now
             /\ Message.customerId data = Claims.customerId user
         | _ => False
         end.
Proof.
  destruct req as [bookingId|bookingId content uuid now|];
    cbn [messages_router].
  - left. rewrite messages_get_booking_eq. apply stored_ensure.
  - destruct (messages_post_booking user bookingId content uuid now fs)
      as [r fs'] eqn:Hpost. cbn [snd].
    destruct (Z.eq_dec (status r) 201) as [H201|Hnot].
    + right.
      destruct (messages_post_booking_201 _ _ _ _ _ _ _ _ Hpost H201)
        as (text & _ & Hne & Hlen & _ & ->).
      eexists. split; [reflexivity|].
      split; [|cbn; auto].
      unfold wellFormedMessage. cbn.
      repeat split; try assumption.
      * apply trim_idem.
      * pose proof (trim_length text). lia.
      * apply customerNameOf_not_empty.
    + left.
      now rewrite (messages_post_booking_not_201 _ _ _ _ _ _ _ _ Hpost Hnot).
  - left. rewrite messages_get_all_eq. apply stored_ensure.
Qed.

(** X9.  The router keeps the stored records well formed.  If every record
    of the file is from a customer, with a named author and a content
    that is not empty, trimmed and at most 2000 characters long, then
    so is every record after any sequence of requests by any callers. *)
Theorem message_log_well_formed
    (reqs : list (Claims.t * MessageRequest)) (fs : Storage) :
  Forall wellFormedMessage (stored fs) ->
  Forall wellFormedMessage (stored (snd (messages_run reqs fs))).
Proof.
  revert fs. induction reqs as [|[user req] reqs IH]; intros fs Hfs;
    [exact Hfs|].
  cbn [messages_run].
  pose proof (messages_router_adds user req fs) as Hstep.
  destruct (messages_router user req fs) as [r fs1]. cbn [snd] in Hstep.
  specialize (IH fs1).
  destruct (messages_run reqs fs1) as [rs fs2]. cbn [snd] in *.
  apply IH.
  destruct Hstep as [-> | (data & -> & Hdata & _)]; [exact Hfs|].
  apply Forall_app. split; [exact Hfs | now constructor].
Qed.

(** X10.  The ids stay distinct as long as [uuidv4()] draws an id that no
    stored record has: a request of any caller takes a file without
    repeated ids to a file without repeated ids. *)
Theorem message_ids_distinct (user : Claims.t) (req : MessageRequest)
    (fs : Storage) :
  NoDup (map Message.id (stored fs)) ->
  drawsFreshId req fs ->
  NoDup (map Message.id (stored (snd (messages_router user req fs)))).
Proof.
  intros Hnodup Hfresh.
  destruct (messages_router_adds user req fs)
    as [-> | (data & -> & _ & Hdata)]; [exact Hnodup|].
  destruct req as [|bookingId content uuid now|]; try contradiction.
  destruct Hdata as (Hid & _). cbn [drawsFreshId] in Hfresh.
  rewrite map_app. cbn [map]. rewrite Hid.
  apply (Permutation_NoDup (Permutation_cons_append _ uuid)).
  now constructor.
Qed.

(** The oldest message goes last. *)
Lemma insert_oldest (x : Message.t) (l : list Message.t) :
  Forall (fun y => Message.createdAt x < Message.createdAt y) l ->
  Js.insert newestFirst x l = (l ++ [x])%list.
Proof.
  induction 1 as [|y l Hy Hl IH]; [reflexivity|].
  cbn [Js.insert app]. unfold newestFirst at 1.
  destruct (Message.createdAt y - Message.createdAt x <=? 0) eqn:Hle.
  - apply Z.leb_le in Hle. lia.
  - now rewrite IH.
Qed.

Lemma sort_clockAdvances (l : list Message.t) :
  clockAdvances l -> Js.sort newestFirst l = rev l.
Proof.
  induction 1 as [|x l Hl IH Hx]; [reflexivity|].
  cbn [Js.sort rev]. rewrite IH. apply insert_oldest.
  apply Forall_rev. exact Hx.
Qed.

Lemma clockAdvances_filter (p : Message.t -> bool) (l : list Message.t) :
  clockAdvances l -> clockAdvances (filter p l).
Proof.
  induction 1 as [|x l Hl IH Hx]; [constructor|].
  cbn [filter]. destruct (p x); [|exact IH].
  constructor; [exact IH|].
  apply Forall_forall. intros y Hy. apply filter_In in Hy as [Hy _].
  revert y Hy. now apply Forall_forall.
Qed.

(** X11.  When the instants of the stored records grow along the file, as
    they do when the clock advances between two appends, both listings
    are the stored thread in reverse: the last record first. *)
Theorem listings_latest_first (user : Claims.t) (bookingId : string)
    (fs : Storage) :
  clockAdvances (stored fs) ->
  fst (messages_get_booking user bookingId fs)
  = (let thread :=
       filter (fun msg => (Message.bookingId msg =? bookingId)%string)
              (stored fs) in
     res 200 (MessagesBody (rev thread) (Z.of_nat (List.length thread))))
  /\ fst (messages_get_all user fs)
     = (let own :=
          filter (fun msg =>
                    (Message.customerId msg
                     =? Claims.customerId user)%string)
                 (stored fs) in
        res 200 (MessagesBody (rev own) (Z.of_nat (List.length own)))).
Proof.
  intros Hclock.
  rewrite messages_get_booking_eq, messages_get_all_eq. cbv zeta.
  cbn [fst].
  rewrite !sort_clockAdvances by now apply clockAdvances_filter.
  now rewrite !length_rev.
Qed.

(** X12.  Ties keep the order of the file: among the messages of a listing
    that carry the same instant, the one stored first comes first. *)
Theorem listing_ties_in_file_order (user : Claims.t) (bookingId : string)
    (fs : Storage) (t : Z) :
  exists messages count,
    fst (messages_get_booking user bookingId fs)
    = res 200 (MessagesBody messages count)
    /\ filter (fun m => Message.createdAt m =? t) messages
       = filter (fun m => Message.createdAt m =? t)
           (filter (fun msg => (Message.bookingId msg =? bookingId)%string)
                   (stored fs)).
Proof.
  rewrite messages_get_booking_eq. cbv zeta. do 2 eexists.
  split; [reflexivity|]. apply newestFirst_sort_stable.
Qed.

(** X13.  Authorship comes from the session.  A customer who logged in and
    sends a valid text, while the token is fresh, gets 201 and the file
    gains one record: it carries the id, email and name of that
    customer, the booking of the path, the trimmed text, the instant of
    the request and the drawn identifier. *)
Theorem message_attributed_to_session (email phone : string) (now : Z)
    (c : Customer.t) (later : Z) (bookingId text uuid : string)
    (posted : Z) (fs : Storage) :
  In c mockCustomers ->
  normalizeEmail email = Customer.email c ->
  normalizePhone phone = Customer.phone c ->
  later / 1000 < now / 1000 + 86400 ->
  Js.trim text <> "" -> Js.length text <= 2000 ->
  exists token customer data,
    login (Js.Str email) (Js.Str phone) now
    = res 200 (LoginBody "Login successful" token customer)
    /\ api_messages (authorizationOf (Some token)) later
         (PostBooking bookingId (Js.Str text) uuid posted) fs
       = (res 201 (MessageSentBody "Message sent successfully" data),
          Some (stored fs ++ [data])%list)
    /\ data
       = Message.mk uuid bookingId (Customer.id c)
           (Customer.firstName c ++ " " ++ Customer.lastName c)
           (Customer.email c) (Js.trim text) posted true.
Proof.
  intros Hin Hemail Hphone Hfresh Htext Hlen.
  rewrite (login_found _ _ now _ Hin Hemail Hphone).
  do 3 eexists. split; [reflexivity|].
  unfold api_messages. rewrite verifyToken_issued.
  assert (Hlt : (later / 1000 <? now / 1000 + TOKEN_EXPIRY) = true)
    by (apply Z.ltb_lt; exact Hfresh).
  rewrite Hlt. cbn [messages_router].
  rewrite messages_post_booking_cases. cbv zeta.
  apply String.eqb_neq in Htext. rewrite Htext.
  assert (Hle : (2000 <? Js.length text) = false) by (apply Z.ltb_ge; lia).
  rewrite Hle. cbn [Claims.customerId Claims.firstName Claims.lastName
                    Claims.email].
  assert (Hname :
    customerNameOf (Customer.firstName c) (Customer.lastName c)
    = Customer.firstName c ++ " " ++ Customer.lastName c).
  { destruct Hin as [<-|[<-|[]]]; reflexivity. }
  rewrite Hname. split; reflexivity.
Qed.

(* ================================================================ *)
(** ** More on services/servicem8.js and routes/bookings.js *)
(* ================================================================ *)

Lemma or_truthy (a b : Js.value) :
  Js.truthy b = true -> Js.truthy (Js.or a b) = true.
Proof. unfold Js.or. now destruct (Js.truthy a) eqn:Ha. Qed.

Lemma or_default (a b : Js.value) :
  Js.or a b = b \/ Js.truthy (Js.or a b) = true.
Proof. unfold Js.or. destruct (Js.truthy a) eqn:Ha; auto. Qed.

Lemma toBooking_displayable (job : Job.t) : displayable (toBooking job).
Proof.
  unfold displayable, toBooking. cbn.
  repeat split; try (apply or_truthy; reflexivity); apply or_default.
Qed.

Lemma toBooking_withMockDetails (job : Job.t) :
  toBooking (withMockDetails job) = toBooking job.
Proof. reflexivity. Qed.

(** X14.  Whenever the booking list answers 200, it holds one
    booking per job the service returned, in the order of the jobs and
    under their uuids, [count] is their number, and no booking is left
    with an undefined or empty job number, address, description or
    status; a missing date or time is null and a missing amount 0. *)
Theorem bookings_list_shape (key : option string) (api : Upstream)
    (user : Claims.t) (bookings : list Booking.t) (count : Z) :
  bookings_list key api user = res 200 (BookingsBody bookings count) ->
  count = Z.of_nat (List.length bookings)
  /\ map Booking.id bookings
     = map Job.uuid
         (getJobsByCustomerEmail key api (Claims.email user))
  /\ Forall displayable bookings.
Proof.
  unfold bookings_list. cbv zeta. intros [= <- <-].
  split; [reflexivity|]. split.
  - rewrite map_map. reflexivity.
  - apply Forall_map, Forall_forall. intros job _.
    apply toBooking_displayable.
Qed.

(** X15.  The listing by customer email is the unfiltered listing or nothing:
    it is what [getJobs] returns whenever the upstream listing answers
    or the email is customer@example.com in any letter case, and empty
    otherwise. *)
Theorem jobs_by_email_all_or_nothing (key : option string) (api : Upstream)
    (email : string) :
  getJobsByCustomerEmail key api email
  = if (apiKeySet key
        && match job_json api with Some _ => true | None => false end)
       || (Js.toLowerCase email =? "customer@example.com")%string
    then getJobs key api
    else [].
Proof.
  rewrite getJobsByCustomerEmail_cases. unfold getJobs.
  rewrite createApiClient_cases. unfold getMockJobsByEmail.
  destruct (apiKeySet key); cbn [andb orb].
  - destruct (job_json api); cbn [orb]; [reflexivity|].
    now destruct (_ =? _)%string.
  - now destruct (_ =? _)%string.
Qed.

(** X16.  The detail of a booking does not depend on the caller: two valid
    sessions, of whatever customers, get the same answer for the same
    id, the one the handler gives without looking at the session. *)
Theorem booking_detail_any_caller (key : option string) (api : Upstream)
    (authorization1 authorization2 : option string) (now1 now2 : Z)
    (user1 user2 : Claims.t) (id : string) :
  verifyToken authorization1 now1 = inr user1 ->
  verifyToken authorization2 now2 = inr user2 ->
  api_bookings_get key api authorization1 now1 id
  = api_bookings_get key api authorization2 now2 id
  /\ api_bookings_get key api authorization1 now1 id
     = bookings_get key api id.
Proof.
  intros H1 H2. unfold api_bookings_get. now rewrite H1, H2.
Qed.

(** X17.  With the upstream down, a customer whose email is not the demo
    email is sent an empty booking list, and yet the detail of every
    fallback job is served to that same session. *)
Theorem fallback_detail_not_hidden (key : option string) (api : Upstream)
    (authorization : option string) (now : Z) (user : Claims.t) :
  verifyToken authorization now = inr user ->
  Js.toLowerCase (Claims.email user) <> "customer@example.com" ->
  upstreamListFails key api ->
  (forall id, upstreamJobFails key api id) ->
  api_bookings_list key api authorization now
  = res 200 (BookingsBody [] 0)
  /\ forall job,
      In job getMockJobs ->
      api_bookings_get key api authorization now (Job.uuid job)
      = res 200 (BookingBody (toBookingDetail (withMockDetails job))).
Proof.
  intros Hsession Hemail Hlist Hjob.
  unfold api_bookings_list, api_bookings_get. rewrite Hsession. split.
  - unfold bookings_list. cbv zeta.
    rewrite getJobsByCustomerEmail_cases.
    apply String.eqb_neq in Hemail.
    assert (Hnone :
      (if apiKeySet key then
         match job_json api with
         | Some jobs => jobs
         | None => getMockJobsByEmail (Claims.email user)
         end
       else getMockJobsByEmail (Claims.email user)) = []).
    { unfold getMockJobsByEmail. rewrite Hemail.
      destruct Hlist as [-> | ->]; [reflexivity|].
      now destruct (apiKeySet key). }
    now rewrite Hnone.
  - intros job Hin. unfold bookings_get.
    assert (Hfound : getJobById key api (Job.uuid job)
                     = Some (withMockDetails job)).
    { rewrite getJobById_cases.
      destruct (Hjob (Job.uuid job)) as [-> | ->];
        [now apply getMockJobById_known|].
      destruct (apiKeySet key); now apply getMockJobById_known. }
    now rewrite Hfound.
Qed.

(** X18.  List and detail agree.  When the upstream is down for every
    request, or answers the listing and answers each listed job with
    that job, every booking of the list can be fetched by its id: the
    answer is 200 and the summary fields of the detail are the listed
    booking. *)
Theorem listed_booking_has_detail (key : option string) (api : Upstream)
    (user : Claims.t) (bookings : list Booking.t) (count : Z)
    (b : Booking.t) :
  bookings_list key api user = res 200 (BookingsBody bookings count) ->
  In b bookings ->
  (upstreamListFails key api /\ forall id, upstreamJobFails key api id)
  \/ (apiKeySet key = true
      /\ exists jobs,
          job_json api = Some jobs
          /\ forall job, In job jobs ->
                         job_by_id api (Job.uuid job) = Some (Some job)) ->
  exists detail,
    bookings_get key api (Booking.id b) = res 200 (BookingBody detail)
    /\ BookingDetail.summary detail = b.
Proof.
  unfold bookings_list. cbv zeta. intros [= <- _] Hin Hmode.
  apply in_map_iff in Hin as (job & <- & Hjob).
  rewrite getJobsByCustomerEmail_cases in Hjob.
  unfold bookings_get. rewrite getJobById_cases. cbn [toBooking Booking.id].
  destruct Hmode as [[Hlist Hdown] | (Hkey & jobs & Hjobs & Hall)].
  - assert (Hmock : In job getMockJobs).
    { assert (Hin' : In job (getMockJobsByEmail (Claims.email user))).
      { destruct Hlist as [Hk | Hj].
        - now rewrite Hk in Hjob.
        - rewrite Hj in Hjob. now destruct (apiKeySet key). }
      unfold getMockJobsByEmail in Hin'.
      destruct (_ =? _)%string; [exact Hin' | contradiction]. }
    assert (Hfound :
      (if apiKeySet key then
         match job_by_id api (Job.uuid job) with
         | Some data => data
         | None => getMockJobById (Job.uuid job)
         end
       else getMockJobById (Job.uuid job)) = Some (withMockDetails job)).
    { destruct (Hdown (Job.uuid job)) as [-> | ->];
        [now apply getMockJobById_known|].
      destruct (apiKeySet key); now apply getMockJobById_known. }
    rewrite Hfound. eexists. split; [reflexivity|].
    apply toBooking_withMockDetails.
  - rewrite Hkey, Hjobs in Hjob. rewrite Hkey, (Hall job Hjob).
    eexists. split; reflexivity.
Qed.

(* ================================================================ *)
(** ** The attachments of a booking *)
(* ================================================================ *)

Lemma getJobAttachments_cases (key : option string) (api : Upstream)
    (files : AttachmentApi) (jobId : string) :
  getJobAttachments key api files jobId =
  if apiKeySet key then
    match files jobId with
    | Some data => AttachmentArray (map toAttachment data)
    | None => getMockAttachments jobId
    end
  else getMockAttachments jobId.
Proof.
  unfold getJobAttachments. rewrite createApiClient_cases.
  now destruct (apiKeySet key).
Qed.

(** X19.  When the upstream answers the attachment query, the listing
    answers 200 with one entry per upstream object, in order and under
    its uuid, with the download address of that uuid.  No entry lacks a
    file name or a type: the name is [filename], else [file_name], else
    [Attachment], so that the default of the route, [Unnamed file], is
    never what fills a gap. *)
Theorem attachments_list_upstream (key : option string) (api : Upstream)
    (files : AttachmentApi) (bookingId : string)
    (data : list RawAttachment.t) :
  apiKeySet key = true ->
  files bookingId = Some data ->
  exists attachments,
    attachments_list key api files bookingId
    = AttachmentsBody attachments (Z.of_nat (List.length data))
    /\ Forall2
         (fun att view =>
            AttachmentView.id view = RawAttachment.uuid att
            /\ AttachmentView.downloadUrl view
               = "/api/attachments/" ++ RawAttachment.uuid att
                 ++ "/download"
            /\ AttachmentView.fileName view
               = Js.or (Js.or (RawAttachment.filename att)
                              (RawAttachment.file_name att))
                       (Js.Str "Attachment")
            /\ Js.truthy (AttachmentView.fileName view) = true
            /\ Js.truthy (AttachmentView.fileType view) = true)
         data attachments.
Proof.
  intros Hkey Hdata. unfold attachments_list.
  rewrite getJobAttachments_cases, Hkey, Hdata. cbv zeta.
  eexists. split; [now rewrite !length_map|].
  clear Hdata. induction data as [|att data IH]; [constructor|].
  cbn [map]. constructor; [|exact IH].
  unfold toAttachmentView, toAttachment. cbn.
  assert (Hname :
    Js.truthy (Js.or (Js.or (RawAttachment.filename att)
                            (RawAttachment.file_name att))
                     (Js.Str "Attachment")) = true)
    by (apply or_truthy; reflexivity).
  repeat split.
  - unfold Js.or at 1. now rewrite Hname.
  - unfold Js.or at 1. now rewrite Hname.
  - apply or_truthy. reflexivity.
Qed.

Lemma getMockAttachments_cases (jobId : string) :
  getMockAttachments jobId = NotAnArray
  /\ In jobId objectPrototypeKeys
  \/ (exists items, getMockAttachments jobId = AttachmentArray items
      /\ (In jobId ["job-001-uuid"; "job-002-uuid"] \/ items = []))
     /\ ~ In jobId objectPrototypeKeys.
Proof.
  unfold getMockAttachments.
  destruct (jobId =? "job-001-uuid")%string eqn:H1.
  { apply String.eqb_eq in H1. subst. right. split; [eexists; split;
      [reflexivity | left; now left]|].
    intros H. cbn in H. intuition discriminate. }
  destruct (jobId =? "job-002-uuid")%string eqn:H2.
  { apply String.eqb_eq in H2. subst. right. split; [eexists; split;
      [reflexivity | left; right; now left]|].
    intros H. cbn in H. intuition discriminate. }
  destruct (jobId =? "job-003-uuid")%string eqn:H3.
  { apply String.eqb_eq in H3. subst. right. split; [eexists; split;
      [reflexivity | now right]|].
    intros H. cbn in H. intuition discriminate. }
  destruct (existsb (String.eqb jobId) objectPrototypeKeys) eqn:Hproto.
  - left. split; [reflexivity|].
    apply existsb_exists in Hproto as (k & Hk & Heq).
    apply String.eqb_eq in Heq. now subst.
  - right. split; [eexists; split; [reflexivity | now right]|].
    intros Hin.
    assert (Htrue : existsb (String.eqb jobId) objectPrototypeKeys = true).
    { apply existsb_exists. exists jobId. split; [exact Hin|].
      apply String.eqb_refl. }
    congruence.
Qed.

(** X20.  When the attachment query does not come back, the listing serves
    the fixed dataset: it answers 200, with an empty list for a booking
    the dataset does not know, and never 404; but for an id that is a
    property name of [Object.prototype] the lookup finds a value that
    is no array, and the answer is 500. *)
Theorem attachments_list_fallback (key : option string) (api : Upstream)
    (files : AttachmentApi) (bookingId : string) :
  apiKeySet key = false \/ files bookingId = None ->
  (In bookingId objectPrototypeKeys ->
   attachments_list key api files bookingId
   = AttachmentsFailure
       (res 500 (ErrorBody "Server Error" "Failed to fetch attachments")))
  /\ (~ In bookingId objectPrototypeKeys ->
      exists attachments,
        attachments_list key api files bookingId
        = AttachmentsBody attachments
            (Z.of_nat (List.length attachments))
        /\ (~ In bookingId ["job-001-uuid"; "job-002-uuid"] ->
            attachments = [])).
Proof.
  intros Hfail.
  assert (Hmock : getJobAttachments key api files bookingId
                  = getMockAttachments bookingId).
  { rewrite getJobAttachments_cases.
    destruct Hfail as [-> | ->]; [reflexivity|].
    now destruct (apiKeySet key). }
  unfold attachments_list. rewrite Hmock.
  destruct (getMockAttachments_cases bookingId)
    as [[-> Hin] | [(items & -> & Hitems) Hnot]].
  - split; [reflexivity | intros H; contradiction].
  - split; [intros H; contradiction|]. intros _. cbv zeta.
    eexists. split; [reflexivity|].
    intros Hunknown. destruct Hitems as [Hknown | ->];
      [contradiction | reflexivity].
Qed.

(* ================================================================ *)
(** ** The status badge of the pages *)
(* ================================================================ *)

(** X21.  The badge of a status does not depend on letter case, and it is
    one of four classes.  On the status of a booking the routes send,
    it fails exactly when the upstream status is a truthy value that
    is not a string; a missing or empty status, shown as [Unknown],
    gets the pending badge. *)
Theorem status_badge (job : Job.t) :
  (forall s,
      getStatusClass (Js.Str (Js.toLowerCase s)) = getStatusClass (Js.Str s))
  /\ (forall status class,
         getStatusClass status = Some class ->
         In class ["badge-completed"; "badge-quote"; "badge-work-order";
                   "badge-pending"])
  /\ (getStatusClass (Booking.status (toBooking job)) = None
      <-> Js.truthy (Job.status job) = true
          /\ isString (Job.status job) = false)
  /\ (Js.truthy (Job.status job) = false ->
      getStatusClass (Booking.status (toBooking job))
      = Some "badge-pending").
Proof.
  split; [intros s; unfold getStatusClass; now rewrite toLowerCase_idem|].
  split.
  { intros status class. unfold getStatusClass.
    destruct status as [| |b|n|s|]; try discriminate;
      intros [= <-]; cbv zeta;
      repeat match goal with
             | |- context [if ?c then _ else _] => destruct c
             end; cbn; auto. }
  cbn [toBooking Booking.status]. unfold Js.or.
  destruct (Job.status job) as [| |b|n|s|]; cbn [Js.truthy isString].
  - split; [split; [discriminate | intros [H _]; discriminate H]|].
    reflexivity.
  - split; [split; [discriminate | intros [H _]; discriminate H]|].
    reflexivity.
  - destruct b; cbn [getStatusClass].
    + split; [split; [auto | reflexivity] | discriminate].
    + split; [split; [discriminate | intros [H _]; discriminate H]|].
      reflexivity.
  - destruct (n =? 0); cbn [negb getStatusClass].
    + split; [split; [discriminate | intros [H _]; discriminate H]|].
      reflexivity.
    + split; [split; [auto | reflexivity] | discriminate].
  - destruct (s =? "")%string eqn:Hs; cbn [negb].
    + split; [split; [discriminate | intros [H _]; discriminate H]|].
      reflexivity.
    + split; [split; [discriminate | intros [_ H]; discriminate H]|].
      discriminate.
  - split; [split; [auto | reflexivity] | discriminate].
Qed.

End Portal.

(* ================================================================== *)
(** ** The base-16 serialization meets the requirements *)
(* ================================================================== *)

Lemma nibbles_of_char (c : ascii) :
  HexCodec.unnibble (HexCodec.nibble (N_of_ascii c / 16))
  = Some (N_of_ascii c / 16)%N
  /\ HexCodec.unnibble (HexCodec.nibble (N_of_ascii c mod 16))
     = Some (N_of_ascii c mod 16)%N
  /\ ascii_of_N (16 * (N_of_ascii c / 16) + N_of_ascii c mod 16) = c
  /\ Ascii.eqb (HexCodec.nibble (N_of_ascii c / 16)) "." = false
  /\ Ascii.eqb (HexCodec.nibble (N_of_ascii c mod 16)) "." = false.
Proof.
  destruct c as [[] [] [] [] [] [] [] []]; vm_compute; repeat split.
Qed.

Lemma unhex_hex (s : string) : HexCodec.unhex (HexCodec.hex s) = Some s.
Proof.
  induction s as [|c r IH]; [reflexivity|].
  destruct (nibbles_of_char c) as (Hhi & Hlo & Hc & _).
  cbn [HexCodec.hex HexCodec.unhex]. now rewrite Hhi, Hlo, IH, Hc.
Qed.

Lemma hex_clean (s : string) : Js.includes "." (HexCodec.hex s) = false.
Proof.
  induction s as [|c r IH]; [reflexivity|].
  destruct (nibbles_of_char c) as (_ & _ & _ & Hhi & Hlo).
  cbn [HexCodec.hex Js.includes]. now rewrite Hhi, Hlo, IH.
Qed.

Lemma Z_of_string_of_Z (z : Z) :
  HexCodec.Z_of_string (HexCodec.string_of_Z z) = Some z.
Proof.
  unfold HexCodec.Z_of_string, HexCodec.string_of_Z.
  rewrite NilEmpty.isi. simpl. now rewrite DecimalZ.of_to.
Qed.

Lemma exp_of_string_of_exp (e : option Z) :
  HexCodec.exp_of_string (HexCodec.string_of_exp e) = Some e.
Proof.
  destruct e as [z|]; [|reflexivity].
  cbn. now rewrite Z_of_string_of_Z.
Qed.

Lemma serialize_not_empty (jws : Jws) : HexCodec.serialize jws <> "".
Proof.
  unfold HexCodec.serialize. cbn [String.concat].
  destruct (HexCodec.hex (Claims.customerId (jws_payload jws)));
    discriminate.
Qed.

Lemma parse_serialize (jws : Jws) :
  HexCodec.parse (HexCodec.serialize jws) = Some jws.
Proof.
  destruct jws as [[cid em fn ln i x] sg].
  unfold HexCodec.parse, HexCodec.serialize.
  cbn [String.concat String.append jws_payload jws_signature Claims.customerId
       Claims.email Claims.firstName Claims.lastName Claims.iat Claims.exp].
  rewrite !split_app by apply hex_clean.
  rewrite split_clean by apply hex_clean.
  rewrite !unhex_hex. cbn [option_map].
  now rewrite Z_of_string_of_Z, exp_of_string_of_exp.
Qed.

(* ================================================================== *)
(** ** The properties on the sample data *)
(* ================================================================== *)

(** A login with upper-case letters, blanks and separators in the input,
    and a login with the email of one customer and the phone of the
    other. *)
Lemma login_credentials_sample :
  (exists token,
      login HexCodec.mac HexCodec.serialize None
        (Js.Str " Customer@Example.COM ") (Js.Str "(0400) 123-456") Sample.t0
      = res 200 (LoginBody "Login successful" token
                   (PublicCustomer.mk "cust-001" "customer@example.com"
                      "John" "Smith"))
      /\ exists claims,
          jwt_verify HexCodec.mac HexCodec.parse token Sample.secret Sample.t1
          = inr claims
          /\ Claims.customerId claims = "cust-001"
          /\ Claims.email claims = "customer@example.com"
          /\ Claims.firstName claims = "John"
          /\ Claims.lastName claims = "Smith")
  /\ login HexCodec.mac HexCodec.serialize None
       (Js.Str "customer@example.com") (Js.Str "0411222333") Sample.t0
     = res 401 (ErrorBody "Unauthorized" "Invalid email or phone number").
Proof.
  pose proof (login_credentials HexCodec.mac HexCodec.serialize
                HexCodec.parse None serialize_not_empty parse_serialize)
    as Hlogin.
  split.
  - destruct (proj1 (Hlogin " Customer@Example.COM " "(0400) 123-456"
                            Sample.t0)
                (Customer.mk "cust-001" "customer@example.com" "0400123456"
                             "John" "Smith"))
      as (token & Hres & Hverify).
    + left. reflexivity.
    + vm_compute. reflexivity.
    + vm_compute. reflexivity.
    + exists token. split; [exact Hres|].
      apply (Hverify Sample.t1). vm_compute. reflexivity.
  - apply (proj2 (Hlogin "customer@example.com" "0411222333" Sample.t0)).
    + discriminate.
    + discriminate.
    + intros c [<-|[<-|[]]] [Hemail Hphone]; vm_compute in Hemail, Hphone;
        discriminate.
Defined.

(** A session of John one second after the login. *)
Lemma verifyToken_sample :
  exists token jws,
    Sample.bearer Sample.john = Some ("Bearer " ++ token)
    /\ HexCodec.parse token = Some jws
    /\ signatureValid HexCodec.mac HexCodec.parse None token = true
    /\ expiredAt HexCodec.parse token Sample.t1 = false
    /\ verifyToken HexCodec.mac HexCodec.parse None
         (Sample.bearer Sample.john) Sample.t1
       = inr (jws_payload jws).
Proof.
  apply (proj2 (verifyToken_unauthorized_iff HexCodec.mac HexCodec.parse None
                  (Sample.bearer Sample.john) Sample.t1)).
  intros [Hmissing|[Hmalformed|Hrejected]].
  - destruct Hmissing as [H|[H|H]]; vm_compute in H; discriminate.
  - destruct Hmalformed as (authHeader & [= <-] & Hshape).
    apply Hshape. eexists. split; [reflexivity|]. vm_compute. reflexivity.
  - destruct Hrejected as (token & Hheader & _ & Hbad).
    injection Hheader as <-.
    vm_compute in Hbad. destruct Hbad; discriminate.
Defined.

(** The token is accepted up to the last millisecond before its expiry
    and turned away from the expiry instant on; so are a token that does
    not parse and headers of another shape. *)
Example verifyToken_sample_rejections :
  let verify := verifyToken HexCodec.mac HexCodec.parse None in
  verify (Sample.bearer Sample.john) 1700086399999 = inr Sample.john
  /\ verify (Sample.bearer Sample.john) 1700086400000
     = inl (unauthorized "Token has expired")
  /\ verify (Some "Bearer abc") Sample.t1 = inl (unauthorized "Invalid token")
  /\ verify (Some "Bearer  abc") Sample.t1
     = inl (unauthorized "Invalid authorization header format")
  /\ verify (Some "Token abc") Sample.t1
     = inl (unauthorized "Invalid authorization header format")
  /\ verify (Some "Bearer ") Sample.t1 = inl (unauthorized "Invalid token").
Proof. vm_compute. repeat split. Qed.

(** A blank message and one of 2001 characters. *)
Lemma append_invalid_unchanged_sample :
  (exists message,
      messages_post_booking Sample.john "job-001-uuid" (Js.Str "   ")
        "m-4" Sample.t1 Sample.file
      = (res 400 (ErrorBody "Bad Request" message), Sample.file))
  /\ (exists message,
         messages_post_booking Sample.john "job-001-uuid"
           (Js.Str ("Hey!" ++ Sample.padding)) "m-4" Sample.t1 Sample.file
         = (res 400 (ErrorBody "Bad Request" message), Sample.file)).
Proof.
  split; apply append_invalid_unchanged.
  - left. vm_compute. reflexivity.
  - right. vm_compute. reflexivity.
Defined.

(** 2000 characters of which 1997 are trailing blanks pass; one more
    character and the text is turned away, though it trims to four. *)
Example append_limit_untrimmed :
  fst (messages_post_booking Sample.john "job-001-uuid"
         (Js.Str ("Hey" ++ Sample.padding)) "m-4" Sample.t1 Sample.file)
  = res 201 (MessageSentBody "Message sent successfully"
               (Message.mk "m-4" "job-001-uuid" "cust-001" "John Smith"
                  "customer@example.com" "Hey" Sample.t1 true))
  /\ fst (messages_post_booking Sample.john "job-001-uuid"
            (Js.Str ("Hey!" ++ Sample.padding)) "m-4" Sample.t1 Sample.file)
     = res 400 (ErrorBody "Bad Request"
                  "Message content cannot exceed 2000 characters").
Proof. vm_compute. split; reflexivity. Qed.

(** John's message is still listed after a later message of Jane: for
    Jane on the booking, and for John among his own. *)
Lemma append_then_listed_sample :
  let later :=
    snd (messages_run
           [(Sample.jane,
             PostBooking "job-001-uuid" (Js.Str "Thanks") "m-5" Sample.t1)]
           Sample.fileAfter) in
  (exists messages count,
      fst (messages_get_booking Sample.jane "job-001-uuid" later)
      = res 200 (MessagesBody messages count)
      /\ In Sample.hello messages)
  /\ (exists messages count,
         fst (messages_get_all Sample.john later)
         = res 200 (MessagesBody messages count)
         /\ In Sample.hello messages).
Proof.
  destruct (append_then_listed Sample.john "job-001-uuid"
              (Js.Str "  Hello  ") "m-4" Sample.t1 Sample.file
              Sample.fileAfter "Message sent successfully" Sample.hello
              [(Sample.jane,
                PostBooking "job-001-uuid" (Js.Str "Thanks") "m-5" Sample.t1)])
    as (Hbooking & Hall & _).
  - vm_compute. reflexivity.
  - split; [apply (Hbooking Sample.jane) | apply (Hall Sample.john)].
    reflexivity.
Defined.

(** John and Jane read the same thread of the first booking: its two
    messages, one by each of them, and not John's message on the second
    booking. *)
Lemma messages_for_booking_any_caller_sample :
  api_messages HexCodec.mac HexCodec.parse None (Sample.bearer Sample.john)
    Sample.t1 (GetBooking "job-001-uuid") Sample.file
  = api_messages HexCodec.mac HexCodec.parse None (Sample.bearer Sample.jane)
      Sample.t1 (GetBooking "job-001-uuid") Sample.file
  /\ exists messages count,
      fst (api_messages HexCodec.mac HexCodec.parse None
             (Sample.bearer Sample.john) Sample.t1
             (GetBooking "job-001-uuid") Sample.file)
      = res 200 (MessagesBody messages count)
      /\ count = Z.of_nat (List.length messages)
      /\ Permutation
           (filter (fun msg =>
                      (Message.bookingId msg =? "job-001-uuid")%string)
                   (stored Sample.file))
           messages
      /\ (forall msg,
             In msg messages
             <-> In msg (stored Sample.file)
                 /\ Message.bookingId msg = "job-001-uuid")
      /\ StronglySorted newerOrSame messages.
Proof.
  apply (messages_for_booking_any_caller HexCodec.mac HexCodec.parse None
           (Sample.bearer Sample.john) (Sample.bearer Sample.jane)
           Sample.t1 Sample.t1 Sample.john Sample.jane);
    vm_compute; reflexivity.
Defined.

(** With the upstream down, John is sent the three fallback jobs and
    Jane none: the two sessions do not get the same list. *)
Lemma bookings_list_differs_by_customer :
  api_bookings_list HexCodec.mac HexCodec.parse None None
    Sample.upstreamDown (Sample.bearer Sample.john) Sample.t1
  = res 200 (BookingsBody (map toBooking getMockJobs) 3)
  /\ api_bookings_list HexCodec.mac HexCodec.parse None None
       Sample.upstreamDown (Sample.bearer Sample.jane) Sample.t1
     = res 200 (BookingsBody [] 0)
  /\ bookings_list None Sample.upstreamDown Sample.john
     <> bookings_list None Sample.upstreamDown Sample.jane.
Proof.
  split; [vm_compute; reflexivity|].
  split; [vm_compute; reflexivity|].
  vm_compute. discriminate.
Qed.

(** An upstream that answers, and the fallback for Jane. *)
Lemma bookings_list_by_customer_sample :
  (bookings_list (Some "key") Sample.upstreamUp Sample.john
   = res 200 (BookingsBody (map toBooking [Sample.job9]) 1)
   /\ bookings_list (Some "key") Sample.upstreamUp Sample.john
      = bookings_list (Some "key") Sample.upstreamUp Sample.jane)
  /\ bookings_list None Sample.upstreamDown Sample.jane
     = res 200 (BookingsBody [] 0).
Proof.
  split.
  - apply (proj1 (bookings_list_by_customer (Some "key") Sample.upstreamUp
                    Sample.john Sample.jane) [Sample.job9]); reflexivity.
  - apply (proj2 (bookings_list_by_customer None Sample.upstreamDown
                    Sample.jane Sample.john)).
    left. reflexivity.
Defined.

(** An id nobody holds, and the id of the second fallback job asked of
    an upstream that does not have it. *)
Lemma booking_lookup_fallback_sample :
  (getJobById None Sample.upstreamDown "job-404" = None
   /\ bookings_get None Sample.upstreamDown "job-404"
      = res 404 (ErrorBody "Not Found" "Booking not found"))
  /\ (getJobById (Some "key") Sample.upstreamUp "job-002-uuid"
      = Some (withMockDetails (nth 1 getMockJobs Sample.job9))
      /\ bookings_get (Some "key") Sample.upstreamUp "job-002-uuid"
         = res 200 (BookingBody
                      (toBookingDetail
                         (withMockDetails (nth 1 getMockJobs Sample.job9))))).
Proof.
  split.
  - apply (proj1 (booking_lookup_fallback None Sample.upstreamDown "job-404")).
    + reflexivity.
    + intros job [<-|[<-|[<-|[]]]]; discriminate.
  - apply (proj2 (booking_lookup_fallback (Some "key") Sample.upstreamUp
                    "job-002-uuid")).
    + right. reflexivity.
    + right. left. reflexivity.
    + reflexivity.
Defined.

(** The thread of the first booking in the sample file, newest first. *)
Example listForBooking_sample :
  fst (messages_get_booking Sample.john "job-001-uuid" Sample.file)
  = res 200
      (MessagesBody
         [ Message.mk "m-3" "job-001-uuid" "cust-002" "Jane Doe"
             "jane.doe@example.com" "Gate code changed" 1700000300000 true;
           Message.mk "m-1" "job-001-uuid" "cust-001" "John Smith"
             "customer@example.com" "When will you arrive?" 1700000100000
             true ] 2).
Proof. reflexivity. Qed.

(* ================================================================== *)
(** ** The further properties on the sample data *)
(* ================================================================== *)

Lemma includes_app (c : ascii) (s t : string) :
  Js.includes c (s ++ t) = Js.includes c s || Js.includes c t.
Proof.
  induction s as [|d r IH]; [reflexivity|].
  cbn [String.append Js.includes]. now rewrite IH, orb_assoc.
Qed.

Lemma hex_no_space (s : string) : Js.includes " " (HexCodec.hex s) = false.
Proof.
  induction s as [|c r IH]; [reflexivity|].
  cbn [HexCodec.hex Js.includes]. rewrite IH.
  destruct c as [[] [] [] [] [] [] [] []]; reflexivity.
Qed.

Lemma serialize_no_space (jws : Jws) :
  Js.includes " " (HexCodec.serialize jws) = false.
Proof.
  unfold HexCodec.serialize. cbn [String.concat].
  rewrite !includes_app, !hex_no_space. reflexivity.
Qed.

(** Two spellings of John's credentials. *)
Lemma login_normalized_only_sample :
  login HexCodec.mac HexCodec.serialize None
    (Js.Str " Customer@Example.COM ") (Js.Str "(0400) 123-456") Sample.t0
  = login HexCodec.mac HexCodec.serialize None
      (Js.Str "customer@example.com") (Js.Str "0400 123 456") Sample.t0.
Proof.
  apply login_normalized_only; try discriminate; vm_compute; reflexivity.
Defined.

(** John's session, from the login at [t0] to the expiry a day later. *)
Lemma login_session_lifetime_sample :
  exists token customer,
    login HexCodec.mac HexCodec.serialize None
      (Js.Str " Customer@Example.COM ") (Js.Str "(0400) 123-456") Sample.t0
    = res 200 (LoginBody "Login successful" token customer)
    /\ forall later,
        auth_me HexCodec.mac HexCodec.parse None
          (authorizationOf (Some token)) later
        = if later / 1000 <? Sample.t0 / 1000 + 86400
          then res 200
                 (MeBody (Claims.mk "cust-001" "customer@example.com"
                            "John" "Smith" (Sample.t0 / 1000)
                            (Some (Sample.t0 / 1000 + 86400))))
          else res 401 (ErrorBody "Unauthorized" "Token has expired").
Proof.
  apply (login_session_lifetime HexCodec.mac HexCodec.serialize
           HexCodec.parse None serialize_not_empty parse_serialize
           serialize_no_space " Customer@Example.COM " "(0400) 123-456"
           Sample.t0
           (Customer.mk "cust-001" "customer@example.com" "0400123456"
                        "John" "Smith")).
  - left. reflexivity.
  - vm_compute. reflexivity.
  - vm_compute. reflexivity.
Defined.

(** A token that does not parse opens no route. *)
Lemma routes_require_session_sample :
  exists message,
    auth_me HexCodec.mac HexCodec.parse None (Some "Bearer abc") Sample.t1
    = unauthorized message
    /\ api_bookings_list HexCodec.mac HexCodec.parse None (Some "key")
         Sample.upstreamUp (Some "Bearer abc") Sample.t1
       = unauthorized message
    /\ api_bookings_get HexCodec.mac HexCodec.parse None (Some "key")
         Sample.upstreamUp (Some "Bearer abc") Sample.t1 "job-001-uuid"
       = unauthorized message
    /\ api_attachments_list HexCodec.mac HexCodec.parse None (Some "key")
         Sample.upstreamUp SampleFiles.filesUp (Some "Bearer abc") Sample.t1
         "job-001-uuid"
       = AttachmentsFailure (unauthorized message)
    /\ api_messages HexCodec.mac HexCodec.parse None (Some "Bearer abc")
         Sample.t1
         (PostBooking "job-001-uuid" (Js.Str "Hello") "m-4" Sample.t1)
         Sample.file
       = (unauthorized message, Sample.file).
Proof.
  apply (routes_require_session HexCodec.mac HexCodec.parse None
           (Some "Bearer abc") Sample.t1 (Some "key") Sample.upstreamUp
           SampleFiles.filesUp "job-001-uuid"
           (PostBooking "job-001-uuid" (Js.Str "Hello") "m-4" Sample.t1)
           Sample.file).
  intros user. vm_compute. discriminate.
Defined.

Lemma sample_file_well_formed : Forall wellFormedMessage (stored Sample.file).
Proof.
  repeat constructor; try discriminate; vm_compute; try reflexivity;
    discriminate.
Qed.

(** A valid message, a listing and a blank message on the sample file. *)
Lemma message_log_well_formed_sample :
  Forall wellFormedMessage
    (stored
       (snd (messages_run
               [ (Sample.jane,
                  PostBooking "job-001-uuid" (Js.Str " Thanks ") "m-5"
                    Sample.t1);
                 (Sample.john, GetAll);
                 (Sample.john,
                  PostBooking "job-003-uuid" (Js.Str "  ") "m-6" Sample.t1) ]
               Sample.file))).
Proof.
  apply message_log_well_formed. exact sample_file_well_formed.
Defined.

(** A fresh identifier on the sample file. *)
Lemma message_ids_distinct_sample :
  NoDup
    (map Message.id
       (stored
          (snd (messages_router Sample.jane
                  (PostBooking "job-001-uuid" (Js.Str " Thanks ") "m-5"
                     Sample.t1)
                  Sample.file)))).
Proof.
  apply message_ids_distinct.
  - cbn. repeat constructor; cbn; intuition discriminate.
  - cbn. intuition discriminate.
Defined.

(** The sample file was written as the clock advanced. *)
Lemma listings_latest_first_sample :
  fst (messages_get_booking Sample.jane "job-001-uuid" Sample.file)
  = (let thread :=
       filter (fun msg => (Message.bookingId msg =? "job-001-uuid")%string)
              (stored Sample.file) in
     res 200 (MessagesBody (rev thread) (Z.of_nat (List.length thread))))
  /\ fst (messages_get_all Sample.jane Sample.file)
     = (let own :=
          filter (fun msg =>
                    (Message.customerId msg
                     =? Claims.customerId Sample.jane)%string)
                 (stored Sample.file) in
        res 200 (MessagesBody (rev own) (Z.of_nat (List.length own)))).
Proof.
  apply listings_latest_first.
  repeat constructor; vm_compute; reflexivity.
Defined.

(** Jane logs in and writes on John's booking. *)
Lemma message_attributed_to_session_sample :
  exists token customer data,
    login HexCodec.mac HexCodec.serialize None
      (Js.Str "Jane.Doe@example.com") (Js.Str "0411-222-333") Sample.t0
    = res 200 (LoginBody "Login successful" token customer)
    /\ api_messages HexCodec.mac HexCodec.parse None
         (authorizationOf (Some token)) Sample.t1
         (PostBooking "job-001-uuid" (Js.Str " Thanks ") "m-5" Sample.t1)
         Sample.file
       = (res 201 (MessageSentBody "Message sent successfully" data),
          Some (stored Sample.file ++ [data])%list)
    /\ data
       = Message.mk "m-5" "job-001-uuid" "cust-002" "Jane Doe"
           "jane.doe@example.com" "Thanks" Sample.t1 true.
Proof.
  apply (message_attributed_to_session HexCodec.mac HexCodec.serialize
           HexCodec.parse None serialize_not_empty parse_serialize
           serialize_no_space "Jane.Doe@example.com" "0411-222-333"
           Sample.t0
           (Customer.mk "cust-002" "jane.doe@example.com" "0411222333"
                        "Jane" "Doe")
           Sample.t1 "job-001-uuid" " Thanks " "m-5" Sample.t1 Sample.file).
  - right. left. reflexivity.
  - vm_compute. reflexivity.
  - vm_compute. reflexivity.
  - vm_compute. reflexivity.
  - vm_compute. discriminate.
  - vm_compute. discriminate.
Defined.

(** John and Jane ask for the same booking of an upstream that has it. *)
Lemma booking_detail_any_caller_sample :
  api_bookings_get HexCodec.mac HexCodec.parse None (Some "key")
    Sample.upstreamUp (Sample.bearer Sample.john) Sample.t1 "9f3c2a10-77aa"
  = api_bookings_get HexCodec.mac HexCodec.parse None (Some "key")
      Sample.upstreamUp (Sample.bearer Sample.jane) Sample.t1 "9f3c2a10-77aa"
  /\ api_bookings_get HexCodec.mac HexCodec.parse None (Some "key")
       Sample.upstreamUp (Sample.bearer Sample.john) Sample.t1
       "9f3c2a10-77aa"
     = bookings_get (Some "key") Sample.upstreamUp "9f3c2a10-77aa".
Proof.
  apply (booking_detail_any_caller HexCodec.mac HexCodec.parse None
           (Some "key") Sample.upstreamUp
           (Sample.bearer Sample.john) (Sample.bearer Sample.jane)
           Sample.t1 Sample.t1 Sample.john Sample.jane);
    vm_compute; reflexivity.
Defined.

(** Jane, with no API key configured. *)
Lemma fallback_detail_not_hidden_sample :
  api_bookings_list HexCodec.mac HexCodec.parse None None
    Sample.upstreamDown (Sample.bearer Sample.jane) Sample.t1
  = res 200 (BookingsBody [] 0)
  /\ forall job,
      In job getMockJobs ->
      api_bookings_get HexCodec.mac HexCodec.parse None None
        Sample.upstreamDown (Sample.bearer Sample.jane) Sample.t1
        (Job.uuid job)
      = res 200 (BookingBody (toBookingDetail (withMockDetails job))).
Proof.
  apply (fallback_detail_not_hidden HexCodec.mac HexCodec.parse None None
           Sample.upstreamDown (Sample.bearer Sample.jane) Sample.t1
           Sample.jane).
  - vm_compute. reflexivity.
  - vm_compute. discriminate.
  - left. reflexivity.
  - intros id. left. reflexivity.
Defined.

(** The list of an upstream with one job that has neither a job number
    nor a description. *)
Lemma bookings_list_shape_sample :
  1 = Z.of_nat (List.length [toBooking Sample.job9])
  /\ map Booking.id [toBooking Sample.job9]
     = map Job.uuid
         (getJobsByCustomerEmail (Some "key") Sample.upstreamUp
            (Claims.email Sample.jane))
  /\ Forall displayable [toBooking Sample.job9].
Proof.
  apply (bookings_list_shape (Some "key") Sample.upstreamUp Sample.jane
           [toBooking Sample.job9] 1).
  reflexivity.
Defined.

(** The first booking of John's fallback list. *)
Lemma listed_booking_has_detail_sample :
  exists detail,
    bookings_get None Sample.upstreamDown
      (Booking.id (toBooking (nth 0 getMockJobs Sample.job9)))
    = res 200 (BookingBody detail)
    /\ BookingDetail.summary detail
       = toBooking (nth 0 getMockJobs Sample.job9).
Proof.
  apply (listed_booking_has_detail None Sample.upstreamDown Sample.john
           (map toBooking getMockJobs) 3).
  - reflexivity.
  - left. reflexivity.
  - left. split; [left; reflexivity | intros id; left; reflexivity].
Defined.

(** Two upstream attachments, one of them with no field but its uuid. *)
Lemma attachments_list_upstream_sample :
  exists attachments,
    attachments_list (Some "key") Sample.upstreamUp SampleFiles.filesUp
      "9f3c2a10-77aa"
    = AttachmentsBody attachments 2
    /\ Forall2
         (fun att view =>
            AttachmentView.id view = RawAttachment.uuid att
            /\ AttachmentView.downloadUrl view
               = "/api/attachments/" ++ RawAttachment.uuid att ++ "/download"
            /\ AttachmentView.fileName view
               = Js.or (Js.or (RawAttachment.filename att)
                              (RawAttachment.file_name att))
                       (Js.Str "Attachment")
            /\ Js.truthy (AttachmentView.fileName view) = true
            /\ Js.truthy (AttachmentView.fileType view) = true)
         [SampleFiles.photo; SampleFiles.bare] attachments.
Proof.
  apply (attachments_list_upstream (Some "key") Sample.upstreamUp
           SampleFiles.filesUp "9f3c2a10-77aa"
           [SampleFiles.photo; SampleFiles.bare]); reflexivity.
Defined.

(** What the entry without fields becomes. *)
Example attachments_list_defaults :
  attachments_list (Some "key") Sample.upstreamUp SampleFiles.filesUp
    "9f3c2a10-77aa"
  = AttachmentsBody
      [ AttachmentView.mk "att-77" (Js.Str "roof.jpg") (Js.Str "image/jpeg")
          (Js.Str "") (Js.Str "2024-12-01") "/api/attachments/att-77/download";
        AttachmentView.mk "att-78" (Js.Str "Attachment")
          (Js.Str "application/octet-stream") (Js.Str "") Js.Null
          "/api/attachments/att-78/download" ] 2.
Proof. reflexivity. Qed.

(** With no API key: a booking named after an inherited property, and a
    booking the dataset does not know. *)
Lemma attachments_list_fallback_sample :
  attachments_list None Sample.upstreamUp SampleFiles.filesUp "constructor"
  = AttachmentsFailure
      (res 500 (ErrorBody "Server Error" "Failed to fetch attachments"))
  /\ exists attachments,
      attachments_list None Sample.upstreamUp SampleFiles.filesUp "job-404"
      = AttachmentsBody attachments (Z.of_nat (List.length attachments))
      /\ (~ In "job-404" ["job-001-uuid"; "job-002-uuid"] ->
          attachments = []).
Proof.
  split.
  - apply (proj1 (attachments_list_fallback None Sample.upstreamUp
                    SampleFiles.filesUp "constructor" (or_introl eq_refl))).
    left. reflexivity.
  - apply (proj2 (attachments_list_fallback None Sample.upstreamUp
                    SampleFiles.filesUp "job-404" (or_introl eq_refl))).
    cbn. intuition discriminate.
Defined.
